(** * The OpenTelemetry output plugin of telegraf

    A shallow embedding of [plugins/outputs/opentelemetry/opentelemetry.go]:
    the plugin instance is a record, [Connect], [Close] and [Write] are
    computations in a small state-and-error monad that threads the instance
    and the trace of observable effects (log lines, channel set-up and
    tear-down, export calls).  The libraries the plugin calls into (gRPC,
    influx2otel, the TLS helper, the Go runtime) are an interface whose
    answers the theorems quantify over. *)

From Stdlib Require Import ZArith.
From stdpp Require Import base option list strings gmap fin_maps.

Local Open Scope Z_scope.
Local Open Scope string_scope.
Local Open Scope list_scope.

(** ** Go values shared by every package *)

(** A Go [error] value; [option error] is the interface with [None] for [nil]. *)
Inductive error : Type := errorString (msg : string).

(** A Go result pair [(v, err)] of which exactly one side is meaningful. *)
Inductive result (T : Type) : Type :=
| ok (v : T)
| failed (e : error).
Arguments ok {T} v.
Arguments failed {T} e.

(** How a call ends: it returns normally with a value, it returns a
    non-nil error, or the Go runtime panics. *)
Inductive Res (A : Type) : Type :=
| Done (a : A)
| Raise (e : error)
| Panic.
Arguments Done {A} a.
Arguments Raise {A} e.
Arguments Panic {A}.

(** ** package telegraf: the metric model of the host *)
Module telegraf.

(** [type ValueType int], numbered by [iota] after a skipped zero. *)
Definition ValueType : Type := Z.
Definition Counter : ValueType := 1.
Definition Gauge : ValueType := 2.
Definition Untyped : ValueType := 3.
Definition Summary : ValueType := 4.
Definition Histogram : ValueType := 5.

(** The dynamic type of a field value ([interface{}]); a float is kept
    as its IEEE-754 bit pattern. *)
Inductive FieldValue : Type :=
| FieldInt (i : Z)
| FieldUint (u : Z)
| FieldFloat (bits : Z)
| FieldString (s : string)
| FieldBool (b : bool).

(** What the accessors [Name()], [Tags()], [Fields()], [Time()] and
    [Type()] of a [telegraf.Metric] return. *)
Record Metric : Type := {
  Name : string;
  Tags : gmap string string;
  Fields : gmap string FieldValue;
  Time : Z;
  Type_ : ValueType
}.

End telegraf.

(** ** package common of influxdb-observability *)
Module common.

Inductive InfluxMetricValueType : Type :=
| InfluxMetricValueTypeUntyped
| InfluxMetricValueTypeGauge
| InfluxMetricValueTypeSum
| InfluxMetricValueTypeHistogram
| InfluxMetricValueTypeSummary.

End common.

(** ** package pdata: the part of the wire payload the plugin touches *)
Module pdata.

(** [pcommon.Value], without the nested kinds. *)
Inductive Value : Type :=
| ValueStr (s : string)
| ValueInt (i : Z)
| ValueBool (b : bool)
| ValueBytes (bytes : list Z).

(** [pcommon.Map] is a slice of key/value entries: order is kept and
    nothing in the type forbids a repeated key. *)
Definition Map : Type := list (string * Value).

(** [Map.Get]: the first entry with that key. *)
Fixpoint Get (k : string) (m : Map) : option Value :=
  match m with
  | [] => None
  | (k', x) :: m' => if decide (k' = k) then Some x else Get k m'
  end.

(** [Map.UpsertString]: overwrite the entry [Get] finds, in place, or
    append a new entry. *)
Fixpoint UpsertString (k v : string) (m : Map) : Map :=
  match m with
  | [] => [(k, ValueStr v)]
  | (k', x) :: m' =>
      if decide (k' = k) then (k', ValueStr v) :: m'
      else (k', x) :: UpsertString k v m'
  end.

(** One resource group: its attribute set and whatever it groups. *)
Record ResourceMetrics (Scope : Type) : Type := {
  Attributes : Map;
  ScopeMetrics : Scope
}.
Arguments Attributes {Scope} r.
Arguments ScopeMetrics {Scope} r.

End pdata.

(** ** The libraries behind the plugin *)

(** The opaque types the plugin only passes around. *)
Class Platform : Type := {
  (** [telegraf.Logger] *)
  Logger : Type;
  (** [tls.ClientConfig] of plugins/common/tls, embedded in the plugin *)
  tls_ClientConfig : Type;
  (** [*crypto/tls.Config] *)
  ntls_Config : Type;
  (** [&ntls.Config{}] *)
  ntls_Config_zero : ntls_Config;
  (** [*influx2otel.LineProtocolToOtelMetrics] *)
  LineProtocolToOtelMetrics : Type;
  (** the accumulator [NewBatch] returns *)
  MetricsBatch : Type;
  (** [*grpc.ClientConn] *)
  ClientConn : Type;
  (** the metric groups below a resource group *)
  ScopeMetricsSlice : Type
}.

(** [pmetric.Metrics], seen as its slice of resource groups. *)
Abbreviation Metrics := (list (pdata.ResourceMetrics ScopeMetricsSlice)).

Section Plugin.

Context {P : Platform}.

Inductive TransportCredentials : Type :=
| credentials_NewTLS (c : ntls_Config)
| insecure_NewCredentials.

Inductive DialOption : Type :=
| WithTransportCredentials (creds : TransportCredentials)
| WithUserAgent (s : string).

Inductive CallOption : Type :=
| UseCompressor (name : string).

(** [pmetricotlp.NewClient(cc)] *)
Inductive Client : Type :=
| NewClient (cc : ClientConn).

(** [otelLogger{o.Log}] *)
Inductive otelLogger : Type :=
| mk_otelLogger (l : Logger).

(** [metadata.New(headers)] *)
Inductive MD : Type :=
| metadata_New (h : gmap string string).

(** The context of one export: [context.WithTimeout(Background(), d)],
    possibly wrapped by [metadata.NewOutgoingContext]. *)
Record Context : Type := {
  timeout : Z;
  outgoing : option MD
}.

Definition WithTimeout (d : Z) : Context :=
  {| timeout := d; outgoing := None |}.

Definition NewOutgoingContext (ctx : Context) (md : MD) : Context :=
  {| timeout := timeout ctx; outgoing := Some md |}.


(** [pmetricotlp.NewRequestFromMetrics(ms)]; [ResourceMetrics] stands for
    [md.Metrics().ResourceMetrics()]. *)
Inductive Request : Type :=
| NewRequestFromMetrics (ms : Metrics).

Definition ResourceMetrics (md : Request) : Metrics :=
  match md with NewRequestFromMetrics ms => ms end.

(** The answers of the outside world. *)
Record Env : Type := {
  GOOS : string;
  GOARCH : string;
  NewLineProtocolToOtelMetrics : otelLogger → result LineProtocolToOtelMetrics;
  (** [ClientConfig.TLSConfig()]: an error, [nil] when no TLS setting is
      given, or the configuration built from the settings *)
  TLSConfig : tls_ClientConfig → result (option ntls_Config);
  grpc_Dial : string → list DialOption → result ClientConn;
  ClientConn_Close : ClientConn → option error;
  NewBatch : LineProtocolToOtelMetrics → MetricsBatch;
  (** [AddPoint] works on the batch in place and may leave it changed
      even when it reports an error *)
  AddPoint : MetricsBatch → string → gmap string string →
             gmap string telegraf.FieldValue → Z →
             common.InfluxMetricValueType → MetricsBatch * option error;
  GetMetrics : MetricsBatch → Metrics;
  Export : Client → Context → Request → list CallOption → option error;
  (** the order in which the [i]-th [range] over a Go map yields its
      entries; the language leaves it open *)
  map_range : nat → gmap string string → list (string * string)
}.

(** Go promises that a [range] yields every entry once. *)
Definition range_complete (env : Env) : Prop :=
  ∀ i m, map_range env i m ≡ₚ map_to_list m.

(** ** The plugin instance *)

Record CoralogixConfig : Type := {
  AppName : string;
  SubSystem : string;
  PrivateKey : string
}.

(** [Headers] is [None] for a [nil] map, which [Connect] tells from an
    empty one.  [Attributes] is only measured and ranged over, which a
    [nil] and an empty map answer alike.  [coralogix] is the pointer the
    struct declares, reached as [o.CoralogixConfig] in [Connect];
    [Dialect] is the selector [Connect] reads. *)
Record OpenTelemetry : Type := {
  ServiceAddress : string;
  ClientConfig : tls_ClientConfig;
  Timeout : Z;
  Compression : string;
  Headers : option (gmap string string);
  Attributes : gmap string string;
  Dialect : string;
  coralogix : option CoralogixConfig;
  Log : Logger;
  metricsConverter : option LineProtocolToOtelMetrics;
  grpcClientConn : option ClientConn;
  metricsServiceClient : option Client;
  callOptions : list CallOption
}.

Definition coralogixDialect : string := "coralogix".
Definition defaultServiceAddress : string := "localhost:4317".
Definition defaultTimeout : Z := 5 * 1000000000.
Definition defaultCompression : string := "gzip".

(** The instance [init] registers. *)
Definition init (cc : tls_ClientConfig) (l : Logger) : OpenTelemetry := {|
  ServiceAddress := defaultServiceAddress;
  ClientConfig := cc;
  Timeout := defaultTimeout;
  Compression := defaultCompression;
  Headers := None;
  Attributes := ∅;
  Dialect := "";
  coralogix := None;
  Log := l;
  metricsConverter := None;
  grpcClientConn := None;
  metricsServiceClient := None;
  callOptions := []
|}.

(** Field assignments. *)
Definition set_ServiceAddress (x : string) (o : OpenTelemetry) :=
  {| ServiceAddress := x; ClientConfig := ClientConfig o;
     Timeout := Timeout o; Compression := Compression o;
     Headers := Headers o; Attributes := Attributes o;
     Dialect := Dialect o; coralogix := coralogix o; Log := Log o;
     metricsConverter := metricsConverter o;
     grpcClientConn := grpcClientConn o;
     metricsServiceClient := metricsServiceClient o;
     callOptions := callOptions o |}.

Definition set_Timeout (x : Z) (o : OpenTelemetry) :=
  {| ServiceAddress := ServiceAddress o; ClientConfig := ClientConfig o;
     Timeout := x; Compression := Compression o;
     Headers := Headers o; Attributes := Attributes o;
     Dialect := Dialect o; coralogix := coralogix o; Log := Log o;
     metricsConverter := metricsConverter o;
     grpcClientConn := grpcClientConn o;
     metricsServiceClient := metricsServiceClient o;
     callOptions := callOptions o |}.

Definition set_Compression (x : string) (o : OpenTelemetry) :=
  {| ServiceAddress := ServiceAddress o; ClientConfig := ClientConfig o;
     Timeout := Timeout o; Compression := x;
     Headers := Headers o; Attributes := Attributes o;
     Dialect := Dialect o; coralogix := coralogix o; Log := Log o;
     metricsConverter := metricsConverter o;
     grpcClientConn := grpcClientConn o;
     metricsServiceClient := metricsServiceClient o;
     callOptions := callOptions o |}.

Definition set_Headers (x : option (gmap string string)) (o : OpenTelemetry) :=
  {| ServiceAddress := ServiceAddress o; ClientConfig := ClientConfig o;
     Timeout := Timeout o; Compression := Compression o;
     Headers := x; Attributes := Attributes o;
     Dialect := Dialect o; coralogix := coralogix o; Log := Log o;
     metricsConverter := metricsConverter o;
     grpcClientConn := grpcClientConn o;
     metricsServiceClient := metricsServiceClient o;
     callOptions := callOptions o |}.

Definition set_metricsConverter (x : option LineProtocolToOtelMetrics)
    (o : OpenTelemetry) :=
  {| ServiceAddress := ServiceAddress o; ClientConfig := ClientConfig o;
     Timeout := Timeout o; Compression := Compression o;
     Headers := Headers o; Attributes := Attributes o;
     Dialect := Dialect o; coralogix := coralogix o; Log := Log o;
     metricsConverter := x;
     grpcClientConn := grpcClientConn o;
     metricsServiceClient := metricsServiceClient o;
     callOptions := callOptions o |}.

Definition set_grpcClientConn (x : option ClientConn) (o : OpenTelemetry) :=
  {| ServiceAddress := ServiceAddress o; ClientConfig := ClientConfig o;
     Timeout := Timeout o; Compression := Compression o;
     Headers := Headers o; Attributes := Attributes o;
     Dialect := Dialect o; coralogix := coralogix o; Log := Log o;
     metricsConverter := metricsConverter o;
     grpcClientConn := x;
     metricsServiceClient := metricsServiceClient o;
     callOptions := callOptions o |}.

Definition set_metricsServiceClient (x : option Client) (o : OpenTelemetry) :=
  {| ServiceAddress := ServiceAddress o; ClientConfig := ClientConfig o;
     Timeout := Timeout o; Compression := Compression o;
     Headers := Headers o; Attributes := Attributes o;
     Dialect := Dialect o; coralogix := coralogix o; Log := Log o;
     metricsConverter := metricsConverter o;
     grpcClientConn := grpcClientConn o;
     metricsServiceClient := x;
     callOptions := callOptions o |}.

Definition set_callOptions (x : list CallOption) (o : OpenTelemetry) :=
  {| ServiceAddress := ServiceAddress o; ClientConfig := ClientConfig o;
     Timeout := Timeout o; Compression := Compression o;
     Headers := Headers o; Attributes := Attributes o;
     Dialect := Dialect o; coralogix := coralogix o; Log := Log o;
     metricsConverter := metricsConverter o;
     grpcClientConn := grpcClientConn o;
     metricsServiceClient := metricsServiceClient o;
     callOptions := x |}.

(** ** Effects *)

(** The argument of a [Warnf] call. *)
Inductive LogArg : Type :=
| ArgValueType (t : telegraf.ValueType)
| ArgError (e : error).

(** What a call of the plugin does to the outside. *)
Inductive Event : Type :=
| EvWarnf (format : string) (a : LogArg)
| EvDial (target : string) (opts : list DialOption)
| EvClose (cc : ClientConn)
| EvExport (cl : Client) (ctx : Context) (md : Request) (opts : list CallOption).

Record World : Type := {
  self : OpenTelemetry;
  trace : list Event
}.

Definition M (A : Type) : Type := World → World * Res A.

Definition ret {A} (a : A) : M A := λ w, (w, Done a).

Definition bind {A B} (m : M A) (k : A → M B) : M B :=
  λ w, match m w with
       | (w', Done a) => k a w'
       | (w', Raise e) => (w', Raise e)
       | (w', Panic) => (w', Panic)
       end.

#[global] Instance M_ret : MRet M := @ret.
#[global] Instance M_bind : MBind M := λ A B k m, bind m k.

(** [return err] *)
Definition raise {A} (e : error) : M A := λ w, (w, Raise e).

Definition panic {A} : M A := λ w, (w, Panic).

(** read the receiver [o] *)
Definition this : M OpenTelemetry := λ w, (w, Done (self w)).

(** assign to a field of [o] *)
Definition assign (f : OpenTelemetry → OpenTelemetry) : M unit :=
  λ w, ({| self := f (self w); trace := trace w |}, Done tt).

Definition emit (ev : Event) : M unit :=
  λ w, ({| self := self w; trace := trace w ++ [ev] |}, Done tt).

(** [if cond { body }] *)
Definition when (cond : bool) (body : M unit) : M unit :=
  if cond then body else ret tt.

(** [v, err := f(); if err != nil { return err }] *)
Definition try {A} (r : result A) : M A :=
  match r with
  | ok v => ret v
  | failed e => raise e
  end.

(** [return err] for an [err] that may be [nil] *)
Definition return_error (err : option error) : M unit :=
  match err with
  | None => ret tt
  | Some e => raise e
  end.

(** Use of a pointer or interface value: a nil one panics. *)
Definition deref {A} (p : option A) : M A :=
  match p with
  | Some a => ret a
  | None => panic
  end.

(** A [for ... range] loop whose body threads a local variable. *)
Fixpoint for_range {A S} (body : S → A → M S) (s : S) (l : list A) : M S :=
  match l with
  | [] => ret s
  | x :: l' => s' ← body s x; for_range body s' l'
  end.

(** Run a call on an instance, from an empty trace. *)
Definition run {A} (m : M A) (o : OpenTelemetry) : World * Res A :=
  m {| self := o; trace := [] |}.

(** ** Connect *)

(** [o.Headers[k] = v]; Go panics on an assignment into a nil map. *)
Definition assign_header (k v : string) : M unit :=
  o ← this;
  h ← deref (Headers o);
  assign (set_Headers (Some (<[k := v]> h))).

(** Lines 76-83: the headers of the vendor dialect.  Each right-hand
    side reads through the [coralogix] pointer. *)
Definition Connect_headers : M unit :=
  o ← this;
  when (bool_decide (Dialect o = coralogixDialect)) (
    when (bool_decide (Headers o = None)) (assign (set_Headers (Some ∅)));;
    c ← deref (coralogix o);
    assign_header "ApplicationName" (AppName c);;
    c ← deref (coralogix o);
    assign_header "ApiName" (SubSystem c);;
    c ← deref (coralogix o);
    assign_header "Authorization" ("Bearer " +:+ PrivateKey c)).

(** Lines 90-100: the transport credential. *)
Definition Connect_grpcTLSDialOption (env : Env) : M DialOption :=
  o ← this;
  tlsConfig ← try (TLSConfig env (ClientConfig o));
  match tlsConfig with
  | Some c => mret (WithTransportCredentials (credentials_NewTLS c))
  | None =>
      if bool_decide (Dialect o = coralogixDialect)
      then mret (WithTransportCredentials (credentials_NewTLS ntls_Config_zero))
      else mret (WithTransportCredentials insecure_NewCredentials)
  end.

(** Lines 67-75: defaults for what the configuration left unset. *)
Definition Connect_defaults : M unit :=
  o ← this;
  when (bool_decide (ServiceAddress o = ""))
    (assign (set_ServiceAddress defaultServiceAddress));;
  o ← this;
  when (bool_decide (Timeout o ≤ 0)%Z) (assign (set_Timeout defaultTimeout));;
  o ← this;
  when (bool_decide (Compression o = ""))
    (assign (set_Compression defaultCompression)).

Definition userAgent (env : Env) : string :=
  "telegraf (" +:+ GOOS env +:+ "/" +:+ GOARCH env +:+ ")".

Definition Connect (env : Env) : M unit :=
  o ← this;
  let logger := mk_otelLogger (Log o) in
  Connect_defaults;;
  Connect_headers;;
  metricsConverter' ← try (NewLineProtocolToOtelMetrics env logger);
  grpcTLSDialOption ← Connect_grpcTLSDialOption env;
  o ← this;
  let opts := [grpcTLSDialOption; WithUserAgent (userAgent env)] in
  emit (EvDial (ServiceAddress o) opts);;
  grpcClientConn' ← try (grpc_Dial env (ServiceAddress o) opts);
  let metricsServiceClient' := NewClient grpcClientConn' in
  assign (set_metricsConverter (Some metricsConverter'));;
  assign (set_grpcClientConn (Some grpcClientConn'));;
  assign (set_metricsServiceClient (Some metricsServiceClient'));;
  o ← this;
  when (bool_decide (Compression o ≠ "") && bool_decide (Compression o ≠ "none"))
    (assign (set_callOptions (callOptions o ++ [UseCompressor (Compression o)]))).

(** ** Close *)

Definition Close (env : Env) : M unit :=
  o ← this;
  match grpcClientConn o with
  | Some cc =>
      emit (EvClose cc);;
      let err := ClientConn_Close env cc in
      assign (set_grpcClientConn None);;
      return_error err
  | None => mret tt
  end.

(** ** Write *)

(** The [switch] on [metric.Type()]; [None] is the [default] branch. *)
Definition vType (t : telegraf.ValueType) : option common.InfluxMetricValueType :=
  if bool_decide (t = telegraf.Gauge) then Some common.InfluxMetricValueTypeGauge
  else if bool_decide (t = telegraf.Untyped) then Some common.InfluxMetricValueTypeUntyped
  else if bool_decide (t = telegraf.Counter) then Some common.InfluxMetricValueTypeSum
  else if bool_decide (t = telegraf.Histogram) then Some common.InfluxMetricValueTypeHistogram
  else if bool_decide (t = telegraf.Summary) then Some common.InfluxMetricValueTypeSummary
  else None.

(** The body of the loop over [metrics]; both [continue]s end it. *)
Definition Write_point (env : Env) (batch : MetricsBatch)
    (metric : telegraf.Metric) : M MetricsBatch :=
  match vType (telegraf.Type_ metric) with
  | None =>
      emit (EvWarnf "unrecognized metric type %Q"
              (ArgValueType (telegraf.Type_ metric)));;
      mret batch
  | Some vt =>
      let '(batch', err) :=
        AddPoint env batch (telegraf.Name metric) (telegraf.Tags metric)
          (telegraf.Fields metric) (telegraf.Time metric) vt in
      match err with
      | Some e =>
          emit (EvWarnf "failed to add point: %s" (ArgError e));;
          mret batch'
      | None => mret batch'
      end
  end.

(** [At(i).Resource().Attributes().UpsertString(k, v)] *)
Definition upsert_at (i : nat) (rms : Metrics) (kv : string * string) : Metrics :=
  match rms !! i with
  | Some rm =>
      <[i := {| pdata.Attributes :=
                  pdata.UpsertString kv.1 kv.2 (pdata.Attributes rm);
                pdata.ScopeMetrics := pdata.ScopeMetrics rm |}]> rms
  | None => rms
  end.

(** Lines 162-166: the two nested loops.  The upserts keep the number of
    groups, so the bound of the outer loop is the length at entry. *)
Definition Write_attributes (env : Env) (attrs : gmap string string)
    (rms : Metrics) : Metrics :=
  foldl (λ rms i, foldl (upsert_at i) rms (map_range env i attrs))
        rms (seq 0 (length rms)).

Definition Write (env : Env) (metrics : list telegraf.Metric) : M unit :=
  o ← this;
  converter ← deref (metricsConverter o);
  batch ← for_range (Write_point env) (NewBatch env converter) metrics;
  let md := NewRequestFromMetrics (GetMetrics env batch) in
  if bool_decide (length (ResourceMetrics md) = 0%nat) then ret tt else
  let md :=
    if bool_decide (0 < size (Attributes o))%nat
    then NewRequestFromMetrics (Write_attributes env (Attributes o) (ResourceMetrics md))
    else md in
  let ctx := WithTimeout (Timeout o) in
  let ctx :=
    match Headers o with
    | Some h =>
        if bool_decide (0 < size h)%nat
        then NewOutgoingContext ctx (metadata_New h) else ctx
    | None => ctx
    end in
  client ← deref (metricsServiceClient o);
  emit (EvExport client ctx md (callOptions o));;
  return_error (Export env client ctx md (callOptions o)).

(** ** Views of the calls, for stating their properties *)

(** The instance after lines 67-75. *)
Definition defaults (o : OpenTelemetry) : OpenTelemetry :=
  let o := if bool_decide (ServiceAddress o = "")
           then set_ServiceAddress defaultServiceAddress o else o in
  let o := if bool_decide (Timeout o ≤ 0)%Z
           then set_Timeout defaultTimeout o else o in
  if bool_decide (Compression o = "")
  then set_Compression defaultCompression o else o.

(** The vendor dialect is selected and its sub-configuration is absent. *)
Definition vendor_config_missing (o : OpenTelemetry) : Prop :=
  Dialect o = coralogixDialect ∧ coralogix o = None.

(** The header mapping with the three vendor headers merged in. *)
Definition vendor_headers (c : CoralogixConfig) (h : option (gmap string string))
    : gmap string string :=
  <["Authorization" := "Bearer " +:+ PrivateKey c]>
    (<["ApiName" := SubSystem c]>
       (<["ApplicationName" := AppName c]> (default ∅ h))).

(** The instance after lines 76-83, when they run to their end. *)
Definition with_vendor_headers (o : OpenTelemetry) : OpenTelemetry :=
  if bool_decide (Dialect o = coralogixDialect) then
    match coralogix o with
    | Some c => set_Headers (Some (vendor_headers c (Headers o))) o
    | None => o
    end
  else o.

(** The credential of lines 93-100 for an answer of [TLSConfig()]. *)
Definition credential_for (o : OpenTelemetry) (tlsConfig : option ntls_Config)
    : TransportCredentials :=
  match tlsConfig with
  | Some c => credentials_NewTLS c
  | None =>
      if bool_decide (Dialect o = coralogixDialect)
      then credentials_NewTLS ntls_Config_zero
      else insecure_NewCredentials
  end.

(** The dial options [Connect] passes for an answer of [TLSConfig()]. *)
Definition dial_options (env : Env) (o : OpenTelemetry)
    (tlsConfig : option ntls_Config) : list DialOption :=
  [WithTransportCredentials (credential_for o tlsConfig);
   WithUserAgent (userAgent env)].

(** The instance after lines 108-116, for a converter and a channel. *)
Definition established (o : OpenTelemetry) (c : LineProtocolToOtelMetrics)
    (cc : ClientConn) : OpenTelemetry :=
  let o := set_metricsServiceClient (Some (NewClient cc))
             (set_grpcClientConn (Some cc) (set_metricsConverter (Some c) o)) in
  if bool_decide (Compression o ≠ "") && bool_decide (Compression o ≠ "none")
  then set_callOptions (callOptions o ++ [UseCompressor (Compression o)]) o
  else o.

(** [Connect] dialled once, with this credential, and ended as the
    dial did. *)
Definition dialled_with (env : Env) (w' : World) (r : Res unit)
    (creds : TransportCredentials) : Prop :=
  let opts := [WithTransportCredentials creds; WithUserAgent (userAgent env)] in
  trace w' = [EvDial (ServiceAddress (self w')) opts] ∧
  match grpc_Dial env (ServiceAddress (self w')) opts with
  | ok cc => r = Done tt ∧ grpcClientConn (self w') = Some cc
  | failed e => r = Raise e
  end.

(** The codec name after the default of line 73. *)
Definition effective_compression (name : string) : string :=
  if bool_decide (name = "") then defaultCompression else name.

(** None of the four connection fields is set. *)
Definition uninitialized (o : OpenTelemetry) : Prop :=
  metricsConverter o = None ∧ grpcClientConn o = None ∧
  metricsServiceClient o = None ∧ callOptions o = [].

(** Two instances agree on the four connection fields. *)
Definition same_connection (o o' : OpenTelemetry) : Prop :=
  metricsConverter o' = metricsConverter o ∧
  grpcClientConn o' = grpcClientConn o ∧
  metricsServiceClient o' = metricsServiceClient o ∧
  callOptions o' = callOptions o.

(** The batch after one point: unchanged without a value type,
    otherwise whatever [AddPoint] left. *)
Definition Write_add (env : Env) (batch : MetricsBatch)
    (metric : telegraf.Metric) : MetricsBatch :=
  match vType (telegraf.Type_ metric) with
  | None => batch
  | Some vt =>
      (AddPoint env batch (telegraf.Name metric) (telegraf.Tags metric)
         (telegraf.Fields metric) (telegraf.Time metric) vt).1
  end.

(** The error [AddPoint] answers for a point with a value type. *)
Definition Write_rejected (env : Env) (batch : MetricsBatch)
    (metric : telegraf.Metric) : option error :=
  match vType (telegraf.Type_ metric) with
  | None => None
  | Some vt =>
      (AddPoint env batch (telegraf.Name metric) (telegraf.Tags metric)
         (telegraf.Fields metric) (telegraf.Time metric) vt).2
  end.

(** The batch after the loop over [metrics]. *)
Definition Write_batch (env : Env) (batch : MetricsBatch)
    (metrics : list telegraf.Metric) : MetricsBatch :=
  foldl (Write_add env) batch metrics.

(** The warnings one point causes. *)
Definition Write_warning (env : Env) (batch : MetricsBatch)
    (metric : telegraf.Metric) : list Event :=
  match vType (telegraf.Type_ metric) with
  | None => [EvWarnf "unrecognized metric type %Q"
               (ArgValueType (telegraf.Type_ metric))]
  | Some _ =>
      match Write_rejected env batch metric with
      | Some e => [EvWarnf "failed to add point: %s" (ArgError e)]
      | None => []
      end
  end.

(** The warnings of the loop over [metrics], in the order of the input. *)
Fixpoint Write_warnings (env : Env) (batch : MetricsBatch)
    (metrics : list telegraf.Metric) : list Event :=
  match metrics with
  | [] => []
  | metric :: metrics' =>
      Write_warning env batch metric ++
      Write_warnings env (Write_add env batch metric) metrics'
  end.

(** The points that reach [AddPoint]. *)
Definition recognized (metric : telegraf.Metric) : Prop :=
  is_Some (vType (telegraf.Type_ metric)).

#[global] Instance recognized_dec metric : Decision (recognized metric).
Proof. unfold recognized. apply _. Defined.

(** The payload handed to the export call: the finalized batch with the
    static attributes stamped on. *)
Definition Write_payload (env : Env) (o : OpenTelemetry) (rms : Metrics) : Request :=
  if bool_decide (0 < size (Attributes o))%nat
  then NewRequestFromMetrics (Write_attributes env (Attributes o) rms)
  else NewRequestFromMetrics rms.

(** The call context of lines 169-173. *)
Definition Write_context (o : OpenTelemetry) : Context :=
  match Headers o with
  | Some h =>
      if bool_decide (0 < size h)%nat
      then NewOutgoingContext (WithTimeout (Timeout o)) (metadata_New h)
      else WithTimeout (Timeout o)
  | None => WithTimeout (Timeout o)
  end.

Definition is_export (ev : Event) : bool :=
  match ev with EvExport _ _ _ _ => true | _ => false end.

Definition is_warning (ev : Event) : bool :=
  match ev with EvWarnf _ _ => true | _ => false end.

(** ** The host calling the plugin *)

Inductive Call : Type :=
| CallConnect (env : Env)
| CallClose (env : Env)
| CallWrite (env : Env) (metrics : list telegraf.Metric).

Definition call (c : Call) : M unit :=
  match c with
  | CallConnect env => Connect env
  | CallClose env => Close env
  | CallWrite env metrics => Write env metrics
  end.

(** The host goes on after a call that returned an error; a panic ends
    the history.  The answer is the final world and how each call ended. *)
Fixpoint history (cs : list Call) (w : World) : World * list (Res unit) :=
  match cs with
  | [] => (w, [])
  | c :: cs' =>
      match call c w with
      | (w', Panic) => (w', [Panic])
      | (w', r) => let '(w'', rs) := history cs' w' in (w'', r :: rs)
      end
  end.

(** The [Connect] calls of a history that returned [nil]. *)
Fixpoint connected_count (cs : list Call) (rs : list (Res unit)) : nat :=
  match cs, rs with
  | CallConnect _ :: cs', Done _ :: rs' => S (connected_count cs' rs')
  | _ :: cs', _ :: rs' => connected_count cs' rs'
  | _, _ => 0
  end.

(** One for a [Connect] that returned [nil], zero for any other call. *)
Definition connected_now (c : Call) (r : Res unit) : nat :=
  connected_count [c] [r].

(** A resource group after the upserts of one pass over the static
    attributes. *)
Definition stamped (kvs : list (string * string))
    (rm : pdata.ResourceMetrics ScopeMetricsSlice)
    : pdata.ResourceMetrics ScopeMetricsSlice :=
  {| pdata.Attributes :=
       foldl (λ m kv, pdata.UpsertString kv.1 kv.2 m) (pdata.Attributes rm) kvs;
     pdata.ScopeMetrics := pdata.ScopeMetrics rm |}.

(** The settings [Connect] only reads. *)
Definition same_settings (o o' : OpenTelemetry) : Prop :=
  ClientConfig o' = ClientConfig o ∧ Attributes o' = Attributes o ∧
  Dialect o' = Dialect o ∧ coralogix o' = coralogix o ∧ Log o' = Log o.

(** The settings [Connect] may write. *)
Definition same_configuration (o o' : OpenTelemetry) : Prop :=
  ServiceAddress o' = ServiceAddress o ∧ Timeout o' = Timeout o ∧
  Compression o' = Compression o ∧ Headers o' = Headers o.

Definition is_dial (ev : Event) : bool :=
  match ev with EvDial _ _ => true | _ => false end.

(** The metadata an export carries for a header mapping: none for a
    [nil] or an empty one. *)
Definition outgoing_for (h : option (gmap string string)) : option MD :=
  match h with
  | Some h => if bool_decide (h = ∅) then None else Some (metadata_New h)
  | None => None
  end.

End Plugin.

(** ** A small world to run the calls in *)
Module Fixture.

Definition platform : Platform := {|
  Logger := unit;
  tls_ClientConfig := string;
  ntls_Config := string;
  ntls_Config_zero := "";
  LineProtocolToOtelMetrics := unit;
  MetricsBatch := list string;
  ClientConn := string;
  ScopeMetricsSlice := list string
|}.
#[local] Existing Instance platform.

(** A converter that takes a point when it has a field and files it in
    one resource group; a TLS helper that reads the settings as a
    certificate name, [""] for none and ["broken"] for an unreadable
    one; a network where [unreachable:4317] cannot be dialled and the
    backend turns down a request made with a zero timeout. *)
Definition env : Env := {|
  GOOS := "linux";
  GOARCH := "amd64";
  NewLineProtocolToOtelMetrics := λ _, ok tt;
  TLSConfig := λ cc : string,
    if bool_decide (cc = "") then ok None
    else if bool_decide (cc = "broken") then failed (errorString "tls: bad cert")
    else ok (Some cc);
  grpc_Dial := λ target _,
    if bool_decide (target = "unreachable:4317")
    then failed (errorString "dial failed") else ok target;
  ClientConn_Close := λ _, None;
  NewBatch := λ _, [];
  AddPoint := λ (b : list string) name _ fields _ _,
    if bool_decide (size fields = 0%nat)
    then (b, Some (errorString "no fields")) else ((b ++ [name])%list, None);
  GetMetrics := λ b : list string,
    match b with
    | [] => []
    | _ => [ {| pdata.Attributes := [("env", pdata.ValueStr "dev")];
                pdata.ScopeMetrics := b |} ]
    end;
  Export := λ _ ctx _ _,
    if bool_decide (timeout ctx = 0)%Z
    then Some (errorString "deadline exceeded") else None;
  map_range := λ _ m, map_to_list m
|}.

(** The same world with a converter that cannot be built. *)
Definition env_no_converter : Env := {|
  GOOS := GOOS env; GOARCH := GOARCH env;
  NewLineProtocolToOtelMetrics := λ _, failed (errorString "no converter");
  TLSConfig := TLSConfig env; grpc_Dial := grpc_Dial env;
  ClientConn_Close := ClientConn_Close env; NewBatch := NewBatch env;
  AddPoint := AddPoint env; GetMetrics := GetMetrics env;
  Export := Export env; map_range := map_range env
|}.

(** The same world with a channel whose teardown reports an error. *)
Definition env_close_fails : Env := {|
  GOOS := GOOS env; GOARCH := GOARCH env;
  NewLineProtocolToOtelMetrics := NewLineProtocolToOtelMetrics env;
  TLSConfig := TLSConfig env; grpc_Dial := grpc_Dial env;
  ClientConn_Close := λ _, Some (errorString "close failed");
  NewBatch := NewBatch env;
  AddPoint := AddPoint env; GetMetrics := GetMetrics env;
  Export := Export env; map_range := map_range env
|}.

Definition fresh : OpenTelemetry := init "" tt.

(** A configuration for the vendor dialect, with a header of the user's
    under one of the vendor's names. *)
Definition vendor : OpenTelemetry := {|
  ServiceAddress := "";
  ClientConfig := "";
  Timeout := 0;
  Compression := "";
  Headers := Some {[ "ApiName" := "mine" ]};
  Attributes := {[ "env" := "prod" ]};
  Dialect := "coralogix";
  coralogix := Some {| AppName := "app"; SubSystem := "sub"; PrivateKey := "K" |};
  Log := tt;
  metricsConverter := None;
  grpcClientConn := None;
  metricsServiceClient := None;
  callOptions := []
|}.

Definition point (name : string) (kind : telegraf.ValueType) : telegraf.Metric := {|
  telegraf.Name := name;
  telegraf.Tags := ∅;
  telegraf.Fields := {[ "value" := telegraf.FieldInt 1 ]};
  telegraf.Time := 0;
  telegraf.Type_ := kind
|}.

Definition bare_point (name : string) (kind : telegraf.ValueType) : telegraf.Metric := {|
  telegraf.Name := name;
  telegraf.Tags := ∅;
  telegraf.Fields := ∅;
  telegraf.Time := 0;
  telegraf.Type_ := kind
|}.

(** [fresh] after a successful [Connect]. *)
Definition connected : OpenTelemetry := self (run (Connect env) fresh).1.

(** A gauge that is taken, a counter without fields that is rejected and
    a point of a kind the host does not define. *)
Definition mixed_points : list telegraf.Metric :=
  [point "cpu" telegraf.Gauge;
   bare_point "disk" telegraf.Counter;
   point "odd" 9].

(** Nothing here reaches the batch. *)
Definition skipped_points : list telegraf.Metric :=
  [bare_point "disk" telegraf.Counter; point "odd" 9].

(** The vendor configuration pointed at an address nobody answers. *)
Definition vendor_unreachable : OpenTelemetry :=
  set_ServiceAddress "unreachable:4317" vendor.

(** The same world with a converter that files a point before it finds
    that the point has no field and reports the error. *)
Definition env_sticky : Env := {|
  GOOS := GOOS env; GOARCH := GOARCH env;
  NewLineProtocolToOtelMetrics := NewLineProtocolToOtelMetrics env;
  TLSConfig := TLSConfig env; grpc_Dial := grpc_Dial env;
  ClientConn_Close := ClientConn_Close env; NewBatch := NewBatch env;
  AddPoint := λ (b : list string) name _ fields _ _,
    if bool_decide (size fields = 0%nat)
    then ((b ++ [name])%list, Some (errorString "no fields"))
    else ((b ++ [name])%list, None);
  GetMetrics := GetMetrics env;
  Export := Export env; map_range := map_range env
|}.

(** The vendor configuration, which stamps [env=prod], after a
    successful [Connect]. *)
Definition stamping : OpenTelemetry := self (run (Connect env) vendor).1.

(** The connected instance with nothing on the trace yet. *)
Definition open_world : World := {| self := connected; trace := [] |}.

(** The connected instance with a timeout the backend turns down. *)
Definition timed_out : OpenTelemetry := set_Timeout 0 connected.

(** A new instance told not to compress. *)
Definition uncompressed : OpenTelemetry := set_Compression "none" fresh.

(** The vendor configuration after a successful [Connect]. *)
Definition vendor_connected : World := (run (Connect env) vendor).1.

(** Two connects, a close and a third connect on one instance. *)
Definition reconnects : list Call :=
  [CallConnect env; CallConnect env;
   CallClose env; CallConnect env].

End Fixture.


(** * Properties *)

Section Properties.

Context {P : Platform}.

Implicit Types (env : Env) (o : OpenTelemetry) (w : World).

(** Unfolding of the monad's operations on a given world. *)
Ltac mred :=
  unfold mbind, M_bind, mret, M_ret, bind, ret, this, assign, emit, when,
    try, raise, panic, return_error, deref, assign_header in *;
  cbn [fst snd self trace] in *.

(** ** The phases of Connect *)

Lemma Connect_defaults_run w :
  Connect_defaults w = ({| self := defaults (self w); trace := trace w |}, Done tt).
Proof.
  destruct w as [o tr]. unfold Connect_defaults, defaults. mred.
  destruct (bool_decide (ServiceAddress o = "")); cbn;
    destruct (bool_decide (Timeout o ≤ 0)%Z); cbn;
    destruct (bool_decide (Compression o = "")); cbn; reflexivity.
Qed.

(** The headers phase: it panics on a missing vendor configuration,
    after an absent header mapping has been made. *)
Lemma Connect_headers_run w :
  Connect_headers w =
    if decide (vendor_config_missing (self w)) then
      ({| self := set_Headers (Some (default ∅ (Headers (self w)))) (self w);
          trace := trace w |}, Panic)
    else ({| self := with_vendor_headers (self w); trace := trace w |}, Done tt).
Proof.
  destruct w as [o tr]. unfold Connect_headers, with_vendor_headers, vendor_config_missing.
  mred. destruct o as [sa cc to co h at' d cfg l mc gc sc opts]; cbn.
  case_bool_decide as Hd; cbn.
  - destruct cfg as [c|]; cbn.
    + rewrite decide_False by (intros [_ ?]; congruence).
      destruct h as [h|]; cbn; reflexivity.
    + rewrite decide_True by done.
      destruct h as [h|]; cbn; reflexivity.
  - rewrite decide_False by (intros [? _]; congruence). reflexivity.
Qed.

Lemma Connect_grpcTLSDialOption_run env w :
  Connect_grpcTLSDialOption env w =
    match TLSConfig env (ClientConfig (self w)) with
    | failed e => (w, Raise e)
    | ok t => (w, Done (WithTransportCredentials (credential_for (self w) t)))
    end.
Proof.
  unfold Connect_grpcTLSDialOption, credential_for. mred.
  destruct (TLSConfig env (ClientConfig (self w))) as [[c|]|e]; cbn; try reflexivity.
  destruct (bool_decide (Dialect (self w) = coralogixDialect)); reflexivity.
Qed.

(** [Connect] in one piece. *)
Lemma Connect_run env w :
  Connect env w =
    let o1 := defaults (self w) in
    if decide (vendor_config_missing o1) then
      ({| self := set_Headers (Some (default ∅ (Headers o1))) o1;
          trace := trace w |}, Panic)
    else
      let o2 := with_vendor_headers o1 in
      match NewLineProtocolToOtelMetrics env (mk_otelLogger (Log (self w))) with
      | failed e => ({| self := o2; trace := trace w |}, Raise e)
      | ok c =>
          match TLSConfig env (ClientConfig o2) with
          | failed e => ({| self := o2; trace := trace w |}, Raise e)
          | ok t =>
              let opts := dial_options env o2 t in
              let tr := trace w ++ [EvDial (ServiceAddress o2) opts] in
              match grpc_Dial env (ServiceAddress o2) opts with
              | failed e => ({| self := o2; trace := tr |}, Raise e)
              | ok cc => ({| self := established o2 c cc; trace := tr |}, Done tt)
              end
          end
      end.
Proof.
  unfold Connect.
  unfold mbind at 1, M_bind at 1, bind at 1, this at 1. cbn [fst snd].
  unfold mbind at 1, M_bind at 1, bind at 1. rewrite Connect_defaults_run.
  unfold mbind at 1, M_bind at 1, bind at 1. rewrite Connect_headers_run.
  cbn [self trace].
  destruct (decide (vendor_config_missing (defaults (self w)))) as [Hm|Hm]; [reflexivity|].
  cbn zeta.
  unfold mbind at 1, M_bind at 1, bind at 1.
  destruct (NewLineProtocolToOtelMetrics env (mk_otelLogger (Log (self w)))) as [c|e];
    [|reflexivity].
  cbn [try ret raise].
  unfold mbind at 1, M_bind at 1, bind at 1. rewrite Connect_grpcTLSDialOption_run.
  cbn [self trace].
  destruct (TLSConfig env (ClientConfig (with_vendor_headers (defaults (self w)))))
    as [t|e]; [|reflexivity].
  unfold dial_options. mred.
  destruct (grpc_Dial env _ _) as [cc|e]; [|reflexivity].
  unfold established. cbn.
  destruct (bool_decide _ && bool_decide _); reflexivity.
Qed.

(** What the first two phases leave alone. *)
Lemma defaults_fields o :
  same_connection o (defaults o) ∧ Headers (defaults o) = Headers o ∧
  Dialect (defaults o) = Dialect o ∧ coralogix (defaults o) = coralogix o ∧
  ClientConfig (defaults o) = ClientConfig o ∧ Log (defaults o) = Log o.
Proof.
  unfold defaults, same_connection.
  destruct (bool_decide (ServiceAddress o = "")); cbn;
    destruct (bool_decide (Timeout o ≤ 0)%Z); cbn;
    destruct (bool_decide (Compression o = "")); cbn; done.
Qed.

Lemma defaults_Compression o :
  Compression (defaults o) =
    if bool_decide (Compression o = "") then defaultCompression else Compression o.
Proof.
  unfold defaults.
  destruct (bool_decide (ServiceAddress o = "")); cbn;
    destruct (bool_decide (Timeout o ≤ 0)%Z); cbn;
    destruct (bool_decide (Compression o = "")); cbn; done.
Qed.

Lemma defaults_Compression_nonempty o : Compression (defaults o) ≠ "".
Proof.
  rewrite defaults_Compression. case_bool_decide; [discriminate|done].
Qed.

Lemma defaults_vendor_config_missing o :
  vendor_config_missing (defaults o) ↔ vendor_config_missing o.
Proof.
  unfold vendor_config_missing.
  destruct (defaults_fields o) as (_ & _ & -> & -> & _). done.
Qed.

Lemma with_vendor_headers_fields o :
  same_connection o (with_vendor_headers o) ∧
  Compression (with_vendor_headers o) = Compression o ∧
  ServiceAddress (with_vendor_headers o) = ServiceAddress o ∧
  Dialect (with_vendor_headers o) = Dialect o ∧
  ClientConfig (with_vendor_headers o) = ClientConfig o.
Proof.
  unfold with_vendor_headers, same_connection.
  destruct (bool_decide (Dialect o = coralogixDialect)); [|done].
  destruct (coralogix o); done.
Qed.

Lemma with_vendor_headers_Headers o :
  Headers (with_vendor_headers o) =
    if bool_decide (Dialect o = coralogixDialect) then
      match coralogix o with
      | Some c => Some (vendor_headers c (Headers o))
      | None => Headers o
      end
    else Headers o.
Proof.
  unfold with_vendor_headers.
  destruct (bool_decide (Dialect o = coralogixDialect)); [|done].
  destruct (coralogix o); done.
Qed.

Lemma established_fields o c cc :
  metricsConverter (established o c cc) = Some c ∧
  grpcClientConn (established o c cc) = Some cc ∧
  metricsServiceClient (established o c cc) = Some (NewClient cc) ∧
  Headers (established o c cc) = Headers o ∧
  Compression (established o c cc) = Compression o ∧
  ServiceAddress (established o c cc) = ServiceAddress o.
Proof.
  unfold established. cbn.
  destruct (bool_decide (Compression o ≠ "") && bool_decide (Compression o ≠ "none"));
    done.
Qed.

Lemma established_callOptions o c cc :
  callOptions (established o c cc) =
    if bool_decide (Compression o ≠ "") && bool_decide (Compression o ≠ "none")
    then callOptions o ++ [UseCompressor (Compression o)]
    else callOptions o.
Proof.
  unfold established. cbn.
  destruct (bool_decide (Compression o ≠ "") && bool_decide (Compression o ≠ "none"));
    done.
Qed.

Lemma same_connection_trans o1 o2 o3 :
  same_connection o1 o2 → same_connection o2 o3 → same_connection o1 o3.
Proof.
  unfold same_connection. intros (-> & -> & -> & ->) (-> & -> & -> & ->). done.
Qed.

Lemma same_connection_configured o :
  same_connection o (with_vendor_headers (defaults o)).
Proof.
  eapply same_connection_trans;
    [apply defaults_fields | apply with_vendor_headers_fields].
Qed.

(** A [Connect] that does not return nil leaves the connection fields
    as they were. *)
Lemma Connect_frame env w w' r :
  Connect env w = (w', r) → r ≠ Done tt → same_connection (self w) (self w').
Proof.
  rewrite Connect_run. cbn zeta. intros Hrun Hr.
  destruct (decide _) as [Hm|Hm].
  { simplify_eq. cbn. apply defaults_fields. }
  destruct (NewLineProtocolToOtelMetrics env _) as [c|e];
    [|simplify_eq; apply same_connection_configured].
  destruct (TLSConfig env _) as [t|e];
    [|simplify_eq; apply same_connection_configured].
  destruct (grpc_Dial env _ _) as [cc|e];
    [simplify_eq|simplify_eq; apply same_connection_configured].
Qed.

(** The trace of a [Connect] grows by at most the one dial. *)
Lemma Connect_trace env w w' r :
  Connect env w = (w', r) →
  trace w' = trace w ∨ ∃ target opts, trace w' = trace w ++ [EvDial target opts].
Proof.
  rewrite Connect_run. cbn zeta. intros Hrun.
  destruct (decide _); [simplify_eq; by left|].
  destruct (NewLineProtocolToOtelMetrics env _); [|simplify_eq; by left].
  destruct (TLSConfig env _); [|simplify_eq; by left].
  destruct (grpc_Dial env _ _); simplify_eq; right; eauto.
Qed.

(** ** Close and Write in one piece *)

Lemma Close_run env w :
  Close env w =
    match grpcClientConn (self w) with
    | Some cc =>
        ({| self := set_grpcClientConn None (self w);
            trace := trace w ++ [EvClose cc] |},
         match ClientConn_Close env cc with
         | None => Done tt
         | Some e => Raise e
         end)
    | None => (w, Done tt)
    end.
Proof.
  unfold Close. mred. destruct (grpcClientConn (self w)) as [cc|]; [|done].
  cbn. destruct (ClientConn_Close env cc); done.
Qed.

Lemma Write_point_run env b m w :
  Write_point env b m w =
    ({| self := self w; trace := trace w ++ Write_warning env b m |},
     Done (Write_add env b m)).
Proof.
  unfold Write_point, Write_warning, Write_add, Write_rejected.
  destruct w as [o tr]. destruct (vType (telegraf.Type_ m)) as [vt|]; [|done].
  destruct (AddPoint _ _ _ _ _ _ _) as [b' [e|]]; mred; cbn; [done|].
  by rewrite app_nil_r.
Qed.

Lemma Write_loop_run env ms : ∀ b w,
  for_range (Write_point env) b ms w =
    ({| self := self w; trace := trace w ++ Write_warnings env b ms |},
     Done (Write_batch env b ms)).
Proof.
  induction ms as [|m ms IH]; intros b w; cbn.
  - destruct w; cbn. by rewrite app_nil_r.
  - unfold mbind, M_bind, bind. rewrite Write_point_run, IH. cbn.
    by rewrite app_assoc.
Qed.

Lemma Write_run env ms w :
  Write env ms w =
    match metricsConverter (self w) with
    | None => (w, Panic)
    | Some c =>
        let b := Write_batch env (NewBatch env c) ms in
        let tr := trace w ++ Write_warnings env (NewBatch env c) ms in
        if bool_decide (length (GetMetrics env b) = 0%nat)
        then ({| self := self w; trace := tr |}, Done tt)
        else
          match metricsServiceClient (self w) with
          | None => ({| self := self w; trace := tr |}, Panic)
          | Some cl =>
              let md := Write_payload env (self w) (GetMetrics env b) in
              let ctx := Write_context (self w) in
              ({| self := self w;
                  trace := tr ++ [EvExport cl ctx md (callOptions (self w))] |},
               match Export env cl ctx md (callOptions (self w)) with
               | None => Done tt
               | Some e => Raise e
               end)
          end
    end.
Proof.
  unfold Write.
  unfold mbind at 1, M_bind at 1, bind at 1, this at 1. cbn [fst snd].
  unfold mbind at 1, M_bind at 1, bind at 1.
  destruct (metricsConverter (self w)) as [c|]; [|done].
  cbn [deref ret].
  unfold mbind at 1, M_bind at 1, bind at 1. rewrite Write_loop_run.
  cbn [ResourceMetrics]. cbn zeta.
  case_bool_decide as Hlen; [done|].
  unfold mbind at 1, M_bind at 1, bind at 1.
  destruct (metricsServiceClient (self w)) as [cl|]; [|done].
  cbn [deref ret].
  assert (Hmd : (if bool_decide (0 < size (Attributes (self w)))%nat
                 then NewRequestFromMetrics
                        (Write_attributes env (Attributes (self w))
                           (GetMetrics env (Write_batch env (NewBatch env c) ms)))
                 else NewRequestFromMetrics
                        (GetMetrics env (Write_batch env (NewBatch env c) ms)))
                = Write_payload env (self w)
                    (GetMetrics env (Write_batch env (NewBatch env c) ms)))
    by reflexivity.
  rewrite Hmd.
  assert (Hctx : match Headers (self w) with
                 | Some h =>
                     if bool_decide (0 < size h)%nat
                     then NewOutgoingContext (WithTimeout (Timeout (self w)))
                            (metadata_New h)
                     else WithTimeout (Timeout (self w))
                 | None => WithTimeout (Timeout (self w))
                 end = Write_context (self w)) by reflexivity.
  rewrite Hctx.
  mred. destruct (Export env cl _ _ _); done.
Qed.

(** ** The loop of Write *)

Lemma Write_batch_app env b ms1 ms2 :
  Write_batch env b (ms1 ++ ms2) = Write_batch env (Write_batch env b ms1) ms2.
Proof. unfold Write_batch. apply foldl_app. Qed.

Lemma Write_warnings_app env ms1 ms2 : ∀ b,
  Write_warnings env b (ms1 ++ ms2) =
    Write_warnings env b ms1 ++ Write_warnings env (Write_batch env b ms1) ms2.
Proof.
  induction ms1 as [|m ms1 IH]; intros b; cbn; [done|].
  by rewrite IH, app_assoc.
Qed.

Lemma Write_warning_is_warning env b m :
  Forall (λ ev, is_warning ev) (Write_warning env b m).
Proof.
  unfold Write_warning. destruct (vType _); [|by repeat constructor].
  destruct (Write_rejected _ _ _); by repeat constructor.
Qed.

Lemma Write_warnings_is_warning env ms : ∀ b,
  Forall (λ ev, is_warning ev) (Write_warnings env b ms).
Proof.
  induction ms as [|m ms IH]; intros b; cbn; [constructor|].
  apply Forall_app. split; [apply Write_warning_is_warning | apply IH].
Qed.

Lemma Write_add_unrecognized env b m :
  vType (telegraf.Type_ m) = None → Write_add env b m = b.
Proof. unfold Write_add. by intros ->. Qed.

(** The points without a value type take no part in the batch: the
    loop is the fold of [AddPoint] over the others, in their order. *)
Lemma Write_batch_recognized env ms : ∀ b,
  Write_batch env b ms = Write_batch env b (filter recognized ms).
Proof.
  induction ms as [|m ms IH]; intros b; [done|].
  rewrite filter_cons. destruct (decide (recognized m)) as [Hr|Hr]; cbn.
  - apply IH.
  - rewrite Write_add_unrecognized; [apply IH|].
    unfold recognized in Hr. by destruct (vType _); [destruct Hr|].
Qed.

Lemma filter_unrecognized (ms : list telegraf.Metric) :
  Forall (λ m, ¬ recognized m) ms → filter recognized ms = [].
Proof.
  induction 1 as [|m ms Hm _ IH]; [done|].
  rewrite filter_cons. destruct (decide (recognized m)); [contradiction|done].
Qed.

Lemma filter_all {A} (f : A → bool) (l : list A) :
  Forall (λ x, f x) l → filter (λ x, f x) l = l.
Proof.
  induction 1 as [|x l Hx _ IH]; [done|].
  rewrite filter_cons, decide_True by done. by rewrite IH.
Qed.

Lemma filter_none {A} (f g : A → bool) (l : list A) :
  (∀ x, f x → ¬ g x) → Forall (λ x, f x) l → filter (λ x, g x) l = [].
Proof.
  intros Hfg. induction 1 as [|x l Hx _ IH]; [done|].
  rewrite filter_cons, decide_False by by apply Hfg. done.
Qed.

Lemma warning_not_export (ev : Event) : is_warning ev → ¬ is_export ev.
Proof. destruct ev; cbn; tauto. Qed.

(** ** Write: what the caller sees *)

(** C3: when the finalized payload has no resource group, [Write]
    returns nil at once and issues no export call; nothing but the
    warnings of the skipped points is emitted.  An empty input, and an
    input whose points all lack a value type, leave the batch as
    [NewBatch] made it, so they are such calls whenever a new batch
    finalizes to no group. *)
Theorem Write_empty_batch_skips_export env ms o c :
  metricsConverter o = Some c →
  length (GetMetrics env (Write_batch env (NewBatch env c) ms)) = 0%nat →
  ∃ tr, run (Write env ms) o = ({| self := o; trace := tr |}, Done tt) ∧
        filter (λ ev, is_export ev) tr = [] ∧
        tr = Write_warnings env (NewBatch env c) ms ∧
        (ms = [] → tr = []) ∧
        (Forall (λ m, ¬ recognized m) ms →
           Write_batch env (NewBatch env c) ms = NewBatch env c).
Proof.
  intros Hc Hlen. unfold run. rewrite Write_run. cbn [self trace]. rewrite Hc.
  cbn zeta. rewrite bool_decide_eq_true_2 by done.
  eexists. split; [reflexivity|]. cbn [app]. repeat split.
  - eapply filter_none; [apply warning_not_export|].
    apply Write_warnings_is_warning.
  - by intros ->.
  - intros Hall. rewrite Write_batch_recognized.
    by rewrite filter_unrecognized.
Qed.

(** C9: on an instance without a converter [Write] panics on its first
    step, before anything is logged or sent, whatever the input; that is
    the state of the instance [init] makes and of any instance a failed
    [Connect] leaves without one.  The client is not checked either (a
    payload to send and no client is a panic), and the stored channel is
    never looked at. *)
Theorem Write_uninitialized_panics env ms o :
  metricsConverter o = None →
  run (Write env ms) o = ({| self := o; trace := [] |}, Panic) ∧
  (∀ cc l, run (Write env ms) (init cc l)
             = ({| self := init cc l; trace := [] |}, Panic)) ∧
  (∀ env0 w0 r0, run (Connect env0) o = (w0, r0) → r0 ≠ Done tt →
                 Write env ms w0 = (w0, Panic)) ∧
  (∀ o' c, metricsConverter o' = Some c → metricsServiceClient o' = None →
           length (GetMetrics env (Write_batch env (NewBatch env c) ms)) ≠ 0%nat →
           (run (Write env ms) o').2 = Panic) ∧
  (∀ o' x, (run (Write env ms) (set_grpcClientConn x o')).2
             = (run (Write env ms) o').2 ∧
           trace (run (Write env ms) (set_grpcClientConn x o')).1
             = trace (run (Write env ms) o').1).
Proof.
  intros Hc. unfold run. split; [|split; [|split; [|split]]].
  - rewrite Write_run. cbn [self trace]. by rewrite Hc.
  - intros cc l. rewrite Write_run. reflexivity.
  - intros env0 w0 r0 Hrun Hr0.
    destruct (Connect_frame _ _ _ _ Hrun Hr0) as (Hc0 & _). cbn in Hc0.
    rewrite Write_run, Hc0, Hc. done.
  - intros o' c Hc' Hcl Hlen. rewrite Write_run. cbn [self trace].
    rewrite Hc', Hcl. cbn zeta. by rewrite bool_decide_eq_false_2.
  - intros o' x. rewrite !Write_run. cbn [self trace].
    destruct o' as [sa cfg to co h at' d vc l mc gc sc opts]; cbn.
    destruct mc as [c|]; [|done]. case_bool_decide; [done|].
    destruct sc as [cl|]; done.
Qed.

(** A connected [Write], point by point. *)
Lemma Write_connected_points env ms o c cl :
  metricsConverter o = Some c →
  metricsServiceClient o = Some cl →
  ∃ tr r,
    run (Write env ms) o = ({| self := o; trace := tr |}, r) ∧
    r ≠ Panic ∧
    (∀ e, r = Raise e ↔
          ∃ ctx md opts, EvExport cl ctx md opts ∈ tr ∧
                         Export env cl ctx md opts = Some e) ∧
    (r = Done tt ↔
     ∀ cl' ctx md opts, EvExport cl' ctx md opts ∈ tr →
                        Export env cl' ctx md opts = None) ∧
    filter (λ ev, is_warning ev) tr = Write_warnings env (NewBatch env c) ms ∧
    Write_batch env (NewBatch env c) ms
      = Write_batch env (NewBatch env c) (filter recognized ms) ∧
    (∀ ms1 m ms2, ms = ms1 ++ m :: ms2 → ¬ recognized m →
       EvWarnf "unrecognized metric type %Q" (ArgValueType (telegraf.Type_ m)) ∈ tr ∧
       Write_batch env (NewBatch env c) (ms1 ++ [m])
         = Write_batch env (NewBatch env c) ms1) ∧
    (∀ ms1 m ms2 e, ms = ms1 ++ m :: ms2 →
       Write_rejected env (Write_batch env (NewBatch env c) ms1) m = Some e →
       EvWarnf "failed to add point: %s" (ArgError e) ∈ tr).
Proof.
  intros Hc Hcl. unfold run. rewrite Write_run. cbn [self trace]. rewrite Hc, Hcl.
  cbn zeta. cbn [app].
  set (b0 := NewBatch env c).
  assert (Hunrec : ∀ ms1 m ms2, ms = ms1 ++ m :: ms2 → ¬ recognized m →
            EvWarnf "unrecognized metric type %Q" (ArgValueType (telegraf.Type_ m))
              ∈ Write_warnings env b0 ms ∧
            Write_batch env b0 (ms1 ++ [m]) = Write_batch env b0 ms1).
  { intros ms1 m ms2 -> Hm.
    assert (Hv : vType (telegraf.Type_ m) = None).
    { unfold recognized in Hm. destruct (vType _); [|done]. by destruct Hm. }
    split.
    - rewrite Write_warnings_app. apply elem_of_app. right. cbn.
      apply elem_of_app. left. unfold Write_warning. rewrite Hv. by left.
    - rewrite Write_batch_app. cbn. by apply Write_add_unrecognized. }
  assert (Hrej : ∀ ms1 m ms2 e, ms = ms1 ++ m :: ms2 →
            Write_rejected env (Write_batch env b0 ms1) m = Some e →
            EvWarnf "failed to add point: %s" (ArgError e)
              ∈ Write_warnings env b0 ms).
  { intros ms1 m ms2 e -> He.
    rewrite Write_warnings_app. apply elem_of_app. right. cbn.
    apply elem_of_app. left. unfold Write_warning.
    unfold Write_rejected in He |- *.
    destruct (vType (telegraf.Type_ m)); [|done]. rewrite He. by left. }
  pose proof (Write_warnings_is_warning env ms b0) as Hw.
  assert (Hnoexp : ∀ cl' ctx md opts,
            EvExport cl' ctx md opts ∉ Write_warnings env b0 ms).
  { intros cl' ctx md opts Hin.
    rewrite Forall_forall in Hw. by apply Hw in Hin. }
  case_bool_decide as Hlen.
  - do 2 eexists. split; [reflexivity|]. split; [done|].
    split; [|split; [|split; [|split; [|split]]]].
    + intros e. split; [done|]. intros (ctx & md & opts & Hin & _).
      by apply Hnoexp in Hin.
    + split; [|done]. intros _ cl' ctx md opts Hin. by apply Hnoexp in Hin.
    + by apply filter_all.
    + apply Write_batch_recognized.
    + done.
    + done.
  - do 2 eexists. split; [reflexivity|].
    set (md := Write_payload env o _). set (ctx := Write_context o).
    assert (Hexp : ∀ cl' ctx' md' opts',
              EvExport cl' ctx' md' opts'
                ∈ Write_warnings env b0 ms ++ [EvExport cl ctx md (callOptions o)] →
              cl' = cl ∧ ctx' = ctx ∧ md' = md ∧ opts' = callOptions o).
    { intros cl' ctx' md' opts' Hin. apply elem_of_app in Hin as [Hin|Hin].
      - by apply Hnoexp in Hin.
      - apply list_elem_of_singleton in Hin. by simplify_eq. }
    split; [by destruct (Export env cl ctx md (callOptions o))|].
    split; [|split; [|split; [|split; [|split]]]].
    + intros e. split.
      * intros He. exists ctx, md, (callOptions o). split.
        -- apply elem_of_app. right. by left.
        -- by destruct (Export env cl ctx md (callOptions o)); simplify_eq.
      * intros (ctx' & md' & opts' & Hin & He).
        apply Hexp in Hin as (_ & -> & -> & ->). by rewrite He.
    + split.
      * intros Hr cl' ctx' md' opts' Hin.
        apply Hexp in Hin as (-> & -> & -> & ->).
        by destruct (Export env cl ctx md (callOptions o)).
      * intros Hall. rewrite (Hall cl ctx md (callOptions o)); [done|].
        apply elem_of_app. right. by left.
    + rewrite filter_app, filter_all by done. cbn. by rewrite app_nil_r.
    + apply Write_batch_recognized.
    + intros ms1 m ms2 Hms Hm. destruct (Hunrec ms1 m ms2 Hms Hm) as [H1 H2].
      split; [|done]. apply elem_of_app. by left.
    + intros ms1 m ms2 e Hms He. apply elem_of_app. left. by eapply Hrej.
Qed.

(** A connected [Write] in one piece. *)
Lemma Write_connected_run env ms o c cl :
  metricsConverter o = Some c →
  metricsServiceClient o = Some cl →
  run (Write env ms) o =
    if bool_decide
         (length (GetMetrics env (Write_batch env (NewBatch env c) ms)) = 0%nat)
    then ({| self := o; trace := Write_warnings env (NewBatch env c) ms |}, Done tt)
    else
      ({| self := o;
          trace :=
            Write_warnings env (NewBatch env c) ms ++
            [EvExport cl (Write_context o)
               (Write_payload env o
                  (GetMetrics env (Write_batch env (NewBatch env c) ms)))
               (callOptions o)] |},
       match Export env cl (Write_context o)
               (Write_payload env o
                  (GetMetrics env (Write_batch env (NewBatch env c) ms)))
               (callOptions o) with
       | None => Done tt
       | Some e => Raise e
       end).
Proof.
  intros Hc Hcl. unfold run. rewrite Write_run. cbn [self trace].
  rewrite Hc, Hcl. cbn zeta. cbn [app]. reflexivity.
Qed.

(** A point that leaves the batch as it was leaves nothing of itself but
    its warning: the call ends as it does without the point, with the
    same events before and after. *)
Lemma Write_skip env o c cl ms1 m ms2 :
  metricsConverter o = Some c →
  metricsServiceClient o = Some cl →
  Write_add env (Write_batch env (NewBatch env c) ms1) m
    = Write_batch env (NewBatch env c) ms1 →
  ∃ ta tb r,
    run (Write env (ms1 ++ m :: ms2)) o =
      ({| self := o;
          trace := ta ++ Write_warning env (Write_batch env (NewBatch env c) ms1) m
                      ++ tb |}, r) ∧
    run (Write env (ms1 ++ ms2)) o = ({| self := o; trace := ta ++ tb |}, r).
Proof.
  intros Hc Hcl Hkeep.
  rewrite !(Write_connected_run _ _ _ _ _ Hc Hcl).
  remember (NewBatch env c) as b0 eqn:Hb0.
  assert (Hb : Write_batch env b0 (ms1 ++ m :: ms2) = Write_batch env b0 (ms1 ++ ms2)).
  { rewrite !Write_batch_app. cbn. by rewrite Hkeep. }
  assert (Hw : Write_warnings env b0 (ms1 ++ m :: ms2) =
               Write_warnings env b0 ms1 ++
               Write_warning env (Write_batch env b0 ms1) m ++
               Write_warnings env (Write_batch env b0 ms1) ms2).
  { rewrite Write_warnings_app. cbn. by rewrite Hkeep. }
  rewrite Hb, Hw, (Write_warnings_app env ms1 ms2).
  case_bool_decide.
  - do 3 eexists. split; reflexivity.
  - exists (Write_warnings env b0 ms1). do 2 eexists.
    split; rewrite <- !app_assoc; reflexivity.
Qed.

(** C1: on a connected instance [Write] always returns.  With no group
    in the finalized payload it returns nil after the warnings; otherwise
    it issues one export after them and returns what that call returned,
    so it returns an error exactly when the export call failed, and then
    that very error.  The points are handled in the order of the input:
    every point with a value type is handed to [AddPoint] whatever
    happened to the points before it.  A point without a value type
    leaves a warning and takes no part in the batch.  A point [AddPoint]
    rejects leaves a warning, and the loop goes on with the batch as
    [AddPoint] left it; when that is the batch as it was, the call ends
    as it does without the point, the warning apart. *)
Theorem Write_error_iff_export_fails env ms o c cl :
  metricsConverter o = Some c →
  metricsServiceClient o = Some cl →
  ∃ tr r,
    run (Write env ms) o = ({| self := o; trace := tr |}, r) ∧
    r ≠ Panic ∧
    (length (GetMetrics env (Write_batch env (NewBatch env c) ms)) = 0%nat →
       tr = Write_warnings env (NewBatch env c) ms ∧ r = Done tt) ∧
    (length (GetMetrics env (Write_batch env (NewBatch env c) ms)) ≠ 0%nat →
       ∃ ctx md,
         ctx = Write_context o ∧
         md = Write_payload env o
                (GetMetrics env (Write_batch env (NewBatch env c) ms)) ∧
         tr = Write_warnings env (NewBatch env c) ms ++
              [EvExport cl ctx md (callOptions o)] ∧
         r = match Export env cl ctx md (callOptions o) with
             | None => Done tt
             | Some e => Raise e
             end) ∧
    (∀ e, r = Raise e ↔
          ∃ ctx md opts, EvExport cl ctx md opts ∈ tr ∧
                         Export env cl ctx md opts = Some e) ∧
    (r = Done tt ↔
     ∀ cl' ctx md opts, EvExport cl' ctx md opts ∈ tr →
                        Export env cl' ctx md opts = None) ∧
    filter (λ ev, is_warning ev) tr = Write_warnings env (NewBatch env c) ms ∧
    Write_batch env (NewBatch env c) ms
      = Write_batch env (NewBatch env c) (filter recognized ms) ∧
    (∀ ms1 m ms2, ms = ms1 ++ m :: ms2 → ¬ recognized m →
       Write_batch env (NewBatch env c) (ms1 ++ [m])
         = Write_batch env (NewBatch env c) ms1 ∧
       ∃ ta tb,
         tr = ta ++ [EvWarnf "unrecognized metric type %Q"
                       (ArgValueType (telegraf.Type_ m))] ++ tb ∧
         run (Write env (ms1 ++ ms2)) o = ({| self := o; trace := ta ++ tb |}, r)) ∧
    (∀ ms1 m ms2 e, ms = ms1 ++ m :: ms2 →
       Write_rejected env (Write_batch env (NewBatch env c) ms1) m = Some e →
       EvWarnf "failed to add point: %s" (ArgError e) ∈ tr ∧
       Write_batch env (NewBatch env c) ms
         = Write_batch env
             (Write_add env (Write_batch env (NewBatch env c) ms1) m) ms2 ∧
       (Write_add env (Write_batch env (NewBatch env c) ms1) m
          = Write_batch env (NewBatch env c) ms1 →
        ∃ ta tb,
          tr = ta ++ [EvWarnf "failed to add point: %s" (ArgError e)] ++ tb ∧
          run (Write env (ms1 ++ ms2)) o = ({| self := o; trace := ta ++ tb |}, r))).
Proof.
  intros Hc Hcl.
  destruct (Write_connected_points env ms o c cl Hc Hcl)
    as (tr & r & Hrun & Hr & Herr & Hnil & Hwarn & Hbatch & Hunrec & Hrej).
  pose proof (Write_connected_run env ms o c cl Hc Hcl) as Hone.
  rewrite Hrun in Hone.
  exists tr, r. split; [exact Hrun|]. split; [exact Hr|].
  split; [|split; [|split; [exact Herr|split; [exact Hnil|
    split; [exact Hwarn|split; [exact Hbatch|split]]]]]].
  - intros Hlen. rewrite bool_decide_eq_true_2 in Hone by done.
    injection Hone as -> ->. done.
  - intros Hlen. rewrite bool_decide_eq_false_2 in Hone by done.
    injection Hone as -> ->. do 2 eexists. by repeat split.
  - intros ms1 m ms2 Hms Hm. destruct (Hunrec ms1 m ms2 Hms Hm) as [_ Hdrop].
    split; [exact Hdrop|].
    assert (Hv : vType (telegraf.Type_ m) = None).
    { unfold recognized in Hm. destruct (vType _); [|done]. by destruct Hm. }
    destruct (Write_skip env o c cl ms1 m ms2 Hc Hcl) as (ta & tb & r' & H1 & H2).
    { by apply Write_add_unrecognized. }
    rewrite <- Hms, Hrun in H1. injection H1 as -> ->.
    exists ta, tb. unfold Write_warning. rewrite Hv. done.
  - intros ms1 m ms2 e Hms He. split; [by eapply Hrej|]. split.
    { rewrite Hms, Write_batch_app. done. }
    intros Hkeep.
    destruct (Write_skip env o c cl ms1 m ms2 Hc Hcl Hkeep)
      as (ta & tb & r' & H1 & H2).
    rewrite <- Hms, Hrun in H1. injection H1 as -> ->.
    exists ta, tb. unfold Write_warning.
    unfold Write_rejected in He |- *.
    destruct (vType (telegraf.Type_ m)); [|done]. rewrite He. done.
Qed.

(** ** Connect: what the caller sees *)

(** C8: each of the three fatal failures ends [Connect] with the error
    it reported, nothing added to it; a [Connect] that does not return
    nil leaves the converter, the channel, the client and the call
    options as they were, so an instance that had none of them still has
    none; and an error [Connect] returns is the error of one of the
    three. *)
Theorem Connect_failure_retains_nothing env o w' r :
  run (Connect env) o = (w', r) →
  (¬ vendor_config_missing o →
     (∀ e, NewLineProtocolToOtelMetrics env (mk_otelLogger (Log o)) = failed e →
           r = Raise e) ∧
     (∀ c e, NewLineProtocolToOtelMetrics env (mk_otelLogger (Log o)) = ok c →
             TLSConfig env (ClientConfig o) = failed e → r = Raise e) ∧
     (∀ target opts e, EvDial target opts ∈ trace w' →
                       grpc_Dial env target opts = failed e → r = Raise e)) ∧
  (r ≠ Done tt →
     same_connection o (self w') ∧ (uninitialized o → uninitialized (self w'))) ∧
  (∀ e, r = Raise e →
     NewLineProtocolToOtelMetrics env (mk_otelLogger (Log o)) = failed e ∨
     TLSConfig env (ClientConfig o) = failed e ∨
     ∃ target opts, trace w' = [EvDial target opts] ∧
                    grpc_Dial env target opts = failed e).
Proof.
  intros Hrun. split; [|split].
  - intros Hm. unfold run in Hrun. rewrite Connect_run in Hrun.
    cbn [self trace] in Hrun. cbn zeta in Hrun.
    rewrite decide_False in Hrun by by rewrite defaults_vendor_config_missing.
    destruct (with_vendor_headers_fields (defaults o)) as (_ & _ & _ & _ & Hcc).
    destruct (defaults_fields o) as (_ & _ & _ & _ & Hcc' & _).
    rewrite Hcc, Hcc' in Hrun.
    split; [|split].
    + intros e He. rewrite He in Hrun. by simplify_eq.
    + intros c e Hc He. rewrite Hc, He in Hrun. by simplify_eq.
    + intros target opts e Hin He.
      destruct (NewLineProtocolToOtelMetrics env _) as [c|e0];
        [|simplify_eq; by apply elem_of_nil in Hin].
      destruct (TLSConfig env _) as [t|e0];
        [|simplify_eq; by apply elem_of_nil in Hin].
      cbn [app] in Hrun.
      destruct (grpc_Dial env _ _) as [cc|e0] eqn:Hd; simplify_eq;
        cbn in Hin; apply list_elem_of_singleton in Hin; simplify_eq; congruence.
  - intros Hr. pose proof (Connect_frame _ _ _ _ Hrun Hr) as Hf. cbn in Hf.
    split; [done|]. unfold uninitialized, same_connection in *.
    destruct Hf as (-> & -> & -> & ->). done.
  - intros e ->. unfold run in Hrun. rewrite Connect_run in Hrun.
    cbn [self trace] in Hrun. cbn zeta in Hrun.
    destruct (with_vendor_headers_fields (defaults o)) as (_ & _ & _ & _ & Hcc).
    destruct (defaults_fields o) as (_ & _ & _ & _ & Hcc' & _).
    rewrite Hcc, Hcc' in Hrun.
    destruct (decide _); [simplify_eq|].
    destruct (NewLineProtocolToOtelMetrics env _) as [c|e0];
      [|simplify_eq; by left].
    destruct (TLSConfig env _) as [t|e0]; [|simplify_eq; right; by left].
    cbn [app] in Hrun.
    destruct (grpc_Dial env _ _) as [cc|e0] eqn:Hd; simplify_eq.
    right; right. eauto.
Qed.

(** C4: with the converter built, the answer of the TLS helper decides
    the credential of the one dial: a configuration it built is used as
    it is; without one, the vendor dialect gets TLS with the zero
    configuration and any other dialect the insecure credential; an
    error of the helper ends [Connect] with that error before any dial. *)
Theorem Connect_credential_priority env o w' r c :
  run (Connect env) o = (w', r) →
  ¬ vendor_config_missing o →
  NewLineProtocolToOtelMetrics env (mk_otelLogger (Log o)) = ok c →
  match TLSConfig env (ClientConfig o) with
  | failed e => r = Raise e ∧ trace w' = []
  | ok (Some cfg) => dialled_with env w' r (credentials_NewTLS cfg)
  | ok None =>
      if decide (Dialect o = coralogixDialect)
      then dialled_with env w' r (credentials_NewTLS ntls_Config_zero)
      else dialled_with env w' r insecure_NewCredentials
  end.
Proof.
  intros Hrun Hm Hc. unfold run in Hrun. rewrite Connect_run in Hrun.
  cbn [self trace] in Hrun. cbn zeta in Hrun.
  rewrite decide_False in Hrun by by rewrite defaults_vendor_config_missing.
  destruct (with_vendor_headers_fields (defaults o)) as (_ & _ & _ & Hd & Hcc).
  destruct (defaults_fields o) as (_ & _ & Hd' & _ & Hcc' & _).
  rewrite Hcc, Hcc', Hc in Hrun.
  destruct (TLSConfig env (ClientConfig o)) as [t|e]; [|by simplify_eq].
  set (o2 := with_vendor_headers (defaults o)) in *.
  assert (Hgoal : dialled_with env w' r (credential_for o2 t)).
  { unfold dialled_with, dial_options in *. cbn [app] in Hrun.
    destruct (grpc_Dial env (ServiceAddress o2) _) as [cc|e] eqn:Hdial;
      simplify_eq; cbn [self trace].
    - destruct (established_fields o2 c cc) as (_ & Hg & _ & _ & _ & ->).
      by rewrite Hdial.
    - by rewrite Hdial. }
  unfold credential_for in Hgoal. rewrite Hd, Hd' in Hgoal.
  destruct t as [cfg|]; [done|].
  destruct (decide (Dialect o = coralogixDialect)) as [He|He].
  - by rewrite bool_decide_eq_true_2 in Hgoal.
  - by rewrite bool_decide_eq_false_2 in Hgoal.
Qed.

Lemma vendor_headers_lookup (cfg : CoralogixConfig) (h : option (gmap string string)) :
  vendor_headers cfg h !! "ApplicationName" = Some (AppName cfg) ∧
  vendor_headers cfg h !! "ApiName" = Some (SubSystem cfg) ∧
  vendor_headers cfg h !! "Authorization" = Some ("Bearer " +:+ PrivateKey cfg) ∧
  (∀ k, k ≠ "ApplicationName" → k ≠ "ApiName" → k ≠ "Authorization" →
        vendor_headers cfg h !! k = default ∅ h !! k).
Proof.
  unfold vendor_headers. repeat split.
  - rewrite lookup_insert_ne by done. rewrite lookup_insert_ne by done.
    apply lookup_insert_eq.
  - rewrite lookup_insert_ne by done. apply lookup_insert_eq.
  - apply lookup_insert_eq.
  - intros k H1 H2 H3. by rewrite !lookup_insert_ne by done.
Qed.

(** C5: however [Connect] ends, and so also when the TLS helper or the
    dial fails afterwards, the header mapping it leaves is, for the
    vendor dialect, the configured one with exactly the three vendor
    headers written over it, and for any other dialect the configured
    one untouched. *)
Theorem Connect_vendor_headers env o w' r :
  run (Connect env) o = (w', r) →
  (∀ cfg, Dialect o = coralogixDialect → coralogix o = Some cfg →
     Headers (self w') = Some (vendor_headers cfg (Headers o)) ∧
     vendor_headers cfg (Headers o) !! "ApplicationName" = Some (AppName cfg) ∧
     vendor_headers cfg (Headers o) !! "ApiName" = Some (SubSystem cfg) ∧
     vendor_headers cfg (Headers o) !! "Authorization"
       = Some ("Bearer " +:+ PrivateKey cfg) ∧
     (∀ k, k ≠ "ApplicationName" → k ≠ "ApiName" → k ≠ "Authorization" →
           vendor_headers cfg (Headers o) !! k = default ∅ (Headers o) !! k)) ∧
  (Dialect o ≠ coralogixDialect → Headers (self w') = Headers o).
Proof.
  intros Hrun. unfold run in Hrun. rewrite Connect_run in Hrun.
  cbn [self trace] in Hrun. cbn zeta in Hrun.
  destruct (defaults_fields o) as (_ & Hh & Hd & Hv & _).
  assert (Hconf : ¬ vendor_config_missing (defaults o) →
            Headers (self w') = Headers (with_vendor_headers (defaults o))).
  { intros Hm. rewrite decide_False in Hrun by done.
    destruct (NewLineProtocolToOtelMetrics env _) as [c|e]; [|by simplify_eq].
    destruct (TLSConfig env _) as [t|e]; [|by simplify_eq].
    destruct (grpc_Dial env _ _) as [cc|e]; simplify_eq; [|done].
    cbn [self]. apply established_fields. }
  split.
  - intros cfg Hdial Hcfg. split; [|apply vendor_headers_lookup].
    rewrite Hconf.
    + rewrite with_vendor_headers_Headers, Hd, Hv, Hh, Hcfg.
      by rewrite bool_decide_eq_true_2.
    + rewrite defaults_vendor_config_missing. intros [_ ?]. congruence.
  - intros Hdial. rewrite Hconf.
    + rewrite with_vendor_headers_Headers, Hd, Hh.
      by rewrite bool_decide_eq_false_2.
    + rewrite defaults_vendor_config_missing. by intros [? _].
Qed.

(** ** Close *)

(** C7: with a channel stored, [Close] closes it, clears the handle
    whether or not that worked, and returns what closing returned; with
    none stored, as after a failed [Connect] on an instance that had
    none, it does nothing and returns nil.  Either way no channel is
    stored afterwards, so a second [Close] does nothing and returns nil. *)
Theorem Close_idempotent env1 env2 w w1 r1 w2 r2 :
  Close env1 w = (w1, r1) →
  Close env2 w1 = (w2, r2) →
  (∀ cc, grpcClientConn (self w) = Some cc →
     trace w1 = trace w ++ [EvClose cc] ∧
     self w1 = set_grpcClientConn None (self w) ∧
     r1 = match ClientConn_Close env1 cc with
          | None => Done tt
          | Some e => Raise e
          end) ∧
  (grpcClientConn (self w) = None → w1 = w ∧ r1 = Done tt) ∧
  grpcClientConn (self w1) = None ∧
  w2 = w1 ∧ r2 = Done tt ∧
  (∀ env0 w0 r0, Connect env0 w0 = (w, r0) → r0 ≠ Done tt →
                 grpcClientConn (self w0) = None → w1 = w ∧ r1 = Done tt).
Proof.
  rewrite !Close_run. intros H1 H2.
  assert (Hnone : grpcClientConn (self w1) = None).
  { destruct (grpcClientConn (self w)) as [cc|] eqn:Hcc; by simplify_eq. }
  rewrite Hnone in H2. injection H2 as Hw2 Hr2.
  assert (Hnoop : grpcClientConn (self w) = None → w1 = w ∧ r1 = Done tt).
  { intros Hcc. rewrite Hcc in H1. by simplify_eq. }
  split; [|split; [|split; [|split; [|split]]]]; try done.
  - intros cc Hcc. rewrite Hcc in H1. by simplify_eq.
  - intros env0 w0 r0 Hconn Hr0 Hcc0. apply Hnoop.
    destruct (Connect_frame _ _ _ _ Hconn Hr0) as (_ & -> & _). done.
Qed.

(** ** Histories of calls *)

Lemma effective_compression_idemp name :
  effective_compression (effective_compression name) = effective_compression name.
Proof. unfold effective_compression. by repeat case_bool_decide. Qed.

Lemma effective_compression_not_none name :
  name ≠ "none" → effective_compression name ≠ "none".
Proof. unfold effective_compression. by case_bool_decide. Qed.

Lemma effective_compression_nonempty name : effective_compression name ≠ "".
Proof. unfold effective_compression. by case_bool_decide. Qed.

(** What a [Connect] does to the codec name and to the call options. *)
Lemma Connect_callOptions env w w' r :
  Connect env w = (w', r) →
  Compression (self w') = effective_compression (Compression (self w)) ∧
  callOptions (self w') =
    match r with
    | Done _ =>
        if bool_decide (Compression (self w') ≠ "none")
        then callOptions (self w) ++ [UseCompressor (Compression (self w'))]
        else callOptions (self w)
    | _ => callOptions (self w)
    end.
Proof.
  rewrite Connect_run. cbn zeta. intros Hrun.
  pose proof (defaults_Compression (self w)) as Hco.
  fold (effective_compression (Compression (self w))) in Hco.
  destruct (defaults_fields (self w)) as ((_ & _ & _ & Hopt) & _).
  destruct (with_vendor_headers_fields (defaults (self w)))
    as ((_ & _ & _ & Hopt') & Hco' & _).
  destruct (decide _).
  { simplify_eq. cbn. done. }
  destruct (NewLineProtocolToOtelMetrics env _) as [c|e];
    [|simplify_eq; cbn; split; congruence].
  destruct (TLSConfig env _) as [t|e]; [|simplify_eq; cbn; split; congruence].
  destruct (grpc_Dial env _ _) as [cc|e]; simplify_eq; cbn [self];
    [|split; congruence].
  destruct (established_fields (with_vendor_headers (defaults (self w))) c cc)
    as (_ & _ & _ & _ & Hco'' & _).
  rewrite established_callOptions, Hco'', Hco', Hco, Hopt', Hopt.
  split; [done|].
  rewrite (bool_decide_eq_true_2 (_ ≠ "")) by apply effective_compression_nonempty.
  done.
Qed.

Lemma Write_self env ms w w' r : Write env ms w = (w', r) → self w' = self w.
Proof.
  rewrite Write_run. intros Hrun.
  destruct (metricsConverter (self w)); [|by simplify_eq].
  cbn zeta in Hrun. case_bool_decide; [by simplify_eq|].
  destruct (metricsServiceClient (self w)); by simplify_eq.
Qed.

Lemma Close_fields env w w' r :
  Close env w = (w', r) →
  Compression (self w') = Compression (self w) ∧
  callOptions (self w') = callOptions (self w) ∧ r ≠ Panic.
Proof.
  rewrite Close_run. intros Hrun.
  destruct (grpcClientConn (self w)); simplify_eq; [|done].
  cbn. by destruct (ClientConn_Close env _).
Qed.

Lemma connected_count_nil_r (cs : list Call) : connected_count cs [] = 0%nat.
Proof. destruct cs as [|[] cs]; reflexivity. Qed.

Lemma call_callOptions c w w' r :
  call c w = (w', r) →
  Compression (self w) ≠ "none" →
  effective_compression (Compression (self w'))
    = effective_compression (Compression (self w)) ∧
  Compression (self w') ≠ "none" ∧
  callOptions (self w') =
    callOptions (self w) ++
    replicate (connected_now c r)
      (UseCompressor (effective_compression (Compression (self w)))).
Proof.
  intros Hcall Hnone. destruct c as [env|env|env ms]; cbn in Hcall.
  - destruct (Connect_callOptions _ _ _ _ Hcall) as [Hco Hopt].
    rewrite Hco, effective_compression_idemp.
    split; [done|]. split; [by apply effective_compression_not_none|].
    rewrite Hopt. unfold connected_now.
    destruct r as [[]| |]; cbn; rewrite ?app_nil_r; try done.
    rewrite bool_decide_eq_true_2; [by rewrite Hco|].
    rewrite Hco. by apply effective_compression_not_none.
  - destruct (Close_fields _ _ _ _ Hcall) as (-> & -> & _).
    unfold connected_now. destruct r; cbn; by rewrite app_nil_r.
  - rewrite (Write_self _ _ _ _ _ Hcall).
    unfold connected_now. destruct r; cbn; by rewrite app_nil_r.
Qed.

Lemma history_callOptions cs : ∀ w w' rs,
  history cs w = (w', rs) →
  Compression (self w) ≠ "none" →
  callOptions (self w') =
    callOptions (self w) ++
    replicate (connected_count cs rs)
      (UseCompressor (effective_compression (Compression (self w)))).
Proof.
  induction cs as [|c cs IH]; intros w w' rs Hh Hnone; cbn in Hh.
  - simplify_eq. cbn. by rewrite app_nil_r.
  - destruct (call c w) as [w1 r1] eqn:Hcall.
    destruct (call_callOptions _ _ _ _ Hcall Hnone) as (Hco & Hnone' & Hopt).
    assert (Hstep : ∀ w'' rs', history cs w1 = (w'', rs') →
              callOptions (self w'') =
                callOptions (self w) ++
                replicate (connected_now c r1 + connected_count cs rs')
                  (UseCompressor (effective_compression (Compression (self w))))).
    { intros w'' rs' Hh'. rewrite (IH _ _ _ Hh' Hnone'), Hopt, Hco.
      by rewrite replicate_add, app_assoc. }
    destruct r1 as [[]|e|].
    + destruct (history cs w1) as [w'' rs'] eqn:Hh'. simplify_eq.
      rewrite (Hstep _ _ eq_refl). by destruct c.
    + destruct (history cs w1) as [w'' rs'] eqn:Hh'. simplify_eq.
      rewrite (Hstep _ _ eq_refl). by destruct c.
    + simplify_eq. rewrite Hopt. unfold connected_now.
      destruct c; cbn; by rewrite !connected_count_nil_r.
Qed.

(** C10: [Connect] never resets the call options.  After any history of
    calls on an instance whose codec is not ["none"], the options are
    those it started with followed by one compressor option for each
    [Connect] that returned nil, so as many as there were of those when
    it started with none; a later [Write] passes that whole list to its
    export.  For one [Connect] that returned nil: the codec name is not
    empty, and unless it is ["none"] exactly one option for it has been
    appended. *)
Theorem Connect_appends_compressor cs o w' rs :
  history cs {| self := o; trace := [] |} = (w', rs) →
  Compression o ≠ "none" →
  callOptions (self w') =
    callOptions o ++
    replicate (connected_count cs rs)
      (UseCompressor (effective_compression (Compression o))) ∧
  (callOptions o = [] → length (callOptions (self w')) = connected_count cs rs) ∧
  (∀ env ms w'' r cl ctx md opts,
     Write env ms w' = (w'', r) →
     EvExport cl ctx md opts ∈ drop (length (trace w')) (trace w'') →
     opts = callOptions (self w')) ∧
  (∀ env w1 w2,
     Connect env w1 = (w2, Done tt) →
     Compression (self w2) ≠ "" ∧
     (Compression (self w2) ≠ "none" →
      callOptions (self w2)
        = callOptions (self w1) ++ [UseCompressor (Compression (self w2))])).
Proof.
  intros Hh Hnone.
  pose proof (history_callOptions _ _ _ _ Hh Hnone) as Hopt. cbn in Hopt.
  split; [done|]. split; [|split].
  - intros Hnil. rewrite Hopt, Hnil. cbn. by rewrite length_replicate.
  - intros env ms w'' r cl ctx md opts. rewrite Write_run. intros Hrun Hin.
    pose proof (Write_warnings_is_warning env ms) as Hw.
    assert (Hnoexp : ∀ b, EvExport cl ctx md opts ∉ Write_warnings env b ms).
    { intros b Hin'. specialize (Hw b). rewrite Forall_forall in Hw.
      by apply Hw in Hin'. }
    destruct (metricsConverter (self w')) as [c|].
    + cbn zeta in Hrun. case_bool_decide.
      * simplify_eq. cbn in Hin. rewrite drop_app_length in Hin.
        by apply Hnoexp in Hin.
      * destruct (metricsServiceClient (self w')) as [cl'|]; simplify_eq;
          cbn in Hin.
        -- rewrite <- app_assoc, drop_app_length in Hin.
           apply elem_of_app in Hin as [Hin|Hin]; [by apply Hnoexp in Hin|].
           apply list_elem_of_singleton in Hin. by simplify_eq.
        -- rewrite drop_app_length in Hin. by apply Hnoexp in Hin.
    + simplify_eq. rewrite drop_all in Hin. by apply elem_of_nil in Hin.
  - intros env w1 w2 Hc. destruct (Connect_callOptions _ _ _ _ Hc) as [Hco Hopt'].
    split; [rewrite Hco; apply effective_compression_nonempty|].
    intros Hn. by rewrite Hopt', bool_decide_eq_true_2.
Qed.

(** ** The static attributes *)

Lemma Get_UpsertString_eq k v (m : pdata.Map) :
  pdata.Get k (pdata.UpsertString k v m) = Some (pdata.ValueStr v).
Proof.
  induction m as [|[k' x] m IH]; cbn.
  - by rewrite decide_True.
  - destruct (decide (k' = k)) as [->|Hne]; cbn.
    + by rewrite decide_True.
    + by rewrite decide_False.
Qed.

Lemma Get_UpsertString_ne k k' v (m : pdata.Map) :
  k' ≠ k → pdata.Get k' (pdata.UpsertString k v m) = pdata.Get k' m.
Proof.
  intros Hne. induction m as [|[k0 x] m IH]; cbn.
  - by rewrite decide_False.
  - destruct (decide (k0 = k)) as [->|Hne0]; cbn.
    + by rewrite !decide_False.
    + destruct (decide (k0 = k')); [done|apply IH].
Qed.

Lemma upserts_Get_other k (kvs : list (string * string)) : ∀ m : pdata.Map,
  k ∉ kvs.*1 →
  pdata.Get k (foldl (λ m kv, pdata.UpsertString kv.1 kv.2 m) m kvs) = pdata.Get k m.
Proof.
  induction kvs as [|[k0 v0] kvs IH]; intros m Hk; cbn; [done|].
  cbn in Hk. apply not_elem_of_cons in Hk as [Hne Hk].
  rewrite IH by done. by apply Get_UpsertString_ne.
Qed.

Lemma upserts_Get_in k v (kvs : list (string * string)) : ∀ m : pdata.Map,
  NoDup kvs.*1 → (k, v) ∈ kvs →
  pdata.Get k (foldl (λ m kv, pdata.UpsertString kv.1 kv.2 m) m kvs)
    = Some (pdata.ValueStr v).
Proof.
  induction kvs as [|[k0 v0] kvs IH]; intros m Hnd Hin; cbn.
  - by apply elem_of_nil in Hin.
  - cbn in Hnd. apply NoDup_cons in Hnd as [Hk0 Hnd].
    apply elem_of_cons in Hin as [Heq|Hin].
    + simplify_eq. rewrite upserts_Get_other by done.
      apply Get_UpsertString_eq.
    + by apply IH.
Qed.

(** One pass of the inner loop over group [i]. *)
Lemma upsert_at_pass i (kvs : list (string * string)) : ∀ rms : Metrics,
  foldl (upsert_at i) rms kvs =
    match rms !! i with
    | Some rm => <[i := stamped kvs rm]> rms
    | None => rms
    end.
Proof.
  induction kvs as [|kv kvs IH]; intros rms; cbn.
  - destruct (rms !! i) as [rm|] eqn:Hi; [|done].
    unfold stamped; cbn. symmetry. destruct rm. by apply list_insert_id.
  - rewrite IH. unfold upsert_at.
    destruct (rms !! i) as [rm|] eqn:Hi.
    + rewrite list_lookup_insert_eq by by eapply lookup_lt_Some.
      by rewrite list_insert_insert_eq.
    + by rewrite Hi.
Qed.

Lemma Write_attributes_prefix env attrs (rms : Metrics) (n : nat) :
  let out := foldl (λ rms i, foldl (upsert_at i) rms (map_range env i attrs))
                   rms (seq 0 n) in
  length out = length rms ∧
  ∀ j, out !! j = if decide (j < n)%nat
                  then stamped (map_range env j attrs) <$> rms !! j
                  else rms !! j.
Proof.
  induction n as [|n [IHlen IH]]; cbn zeta.
  - split; [done|]. intros j. rewrite decide_False by lia. done.
  - rewrite seq_S, foldl_app. cbn [foldl plus]. rewrite upsert_at_pass.
    set (out := foldl _ rms (seq 0 n)) in *.
    destruct (out !! n) as [rm|] eqn:Hn.
    + split; [by rewrite length_insert|]. intros j.
      destruct (decide (j = n)) as [->|Hne].
      * rewrite list_lookup_insert_eq by by eapply lookup_lt_Some.
        rewrite decide_True by lia.
        rewrite IH, decide_False in Hn by lia. by rewrite Hn.
      * rewrite list_lookup_insert_ne by done. rewrite IH.
        destruct (decide (j < n)%nat), (decide (j < S n)%nat); try lia; done.
    + split; [done|]. intros j. rewrite IH.
      destruct (decide (j < n)%nat), (decide (j < S n)%nat); try lia; try done.
      assert (j = n) as -> by lia.
      rewrite IH, decide_False in Hn by lia. by rewrite Hn.
Qed.

(** The two loops stamp every group, each with the entries its own pass
    over the map yielded. *)
Lemma Write_attributes_lookup env attrs (rms : Metrics) j :
  Write_attributes env attrs rms !! j
    = stamped (map_range env j attrs) <$> rms !! j.
Proof.
  destruct (Write_attributes_prefix env attrs rms (length rms)) as [_ H].
  unfold Write_attributes. rewrite H.
  destruct (decide (j < length rms)%nat) as [|Hge]; [done|].
  rewrite lookup_ge_None_2 by lia. done.
Qed.

Lemma Write_attributes_length env attrs (rms : Metrics) :
  length (Write_attributes env attrs rms) = length rms.
Proof. apply (Write_attributes_prefix env attrs rms (length rms)). Qed.

(** The export event of a [Write], if there is one, carries the
    decorated payload. *)
Lemma Write_export_event env ms o c w' r cl ctx md opts :
  metricsConverter o = Some c →
  run (Write env ms) o = (w', r) →
  EvExport cl ctx md opts ∈ trace w' →
  md = Write_payload env o (GetMetrics env (Write_batch env (NewBatch env c) ms)).
Proof.
  intros Hc. unfold run. rewrite Write_run. cbn [self trace]. rewrite Hc.
  cbn zeta. cbn [app]. intros Hrun Hin.
  pose proof (Write_warnings_is_warning env ms (NewBatch env c)) as Hw.
  assert (Hnoexp : EvExport cl ctx md opts ∉ Write_warnings env (NewBatch env c) ms).
  { intros Hin'. rewrite Forall_forall in Hw. by apply Hw in Hin'. }
  case_bool_decide; [by simplify_eq|].
  destruct (metricsServiceClient o) as [cl'|].
  - injection Hrun as <- <-. cbn [trace] in Hin.
    apply elem_of_app in Hin as [Hin|Hin]; [done|].
    apply list_elem_of_singleton in Hin. by simplify_eq.
  - injection Hrun as <- <-. done.
Qed.

(** What the two loops make of a payload. *)
Lemma Write_payload_stamped env o (rms : Metrics) :
  range_complete env →
  (Attributes o = ∅ → Write_payload env o rms = NewRequestFromMetrics rms) ∧
  length (ResourceMetrics (Write_payload env o rms)) = length rms ∧
  (∀ i rm0, rms !! i = Some rm0 →
     ∃ rm, ResourceMetrics (Write_payload env o rms) !! i = Some rm ∧
           pdata.ScopeMetrics rm = pdata.ScopeMetrics rm0 ∧
           (∀ k v, Attributes o !! k = Some v →
                   pdata.Get k (pdata.Attributes rm) = Some (pdata.ValueStr v)) ∧
           (∀ k, Attributes o !! k = None →
                 pdata.Get k (pdata.Attributes rm)
                   = pdata.Get k (pdata.Attributes rm0))) ∧
  (∀ ms c w' r cl ctx md opts,
     metricsConverter o = Some c →
     run (Write env ms) o = (w', r) →
     EvExport cl ctx md opts ∈ trace w' →
     md = Write_payload env o
            (GetMetrics env (Write_batch env (NewBatch env c) ms))).
Proof.
  intros Hrange. split; [|split; [|split]].
  - intros Hempty. unfold Write_payload. rewrite Hempty.
    by rewrite bool_decide_eq_false_2 by (rewrite map_size_empty; lia).
  - unfold Write_payload. case_bool_decide; cbn; [|done].
    apply Write_attributes_length.
  - intros i rm0 Hi. unfold Write_payload. case_bool_decide as Hsize; cbn.
    + rewrite Write_attributes_lookup, Hi. cbn. eexists. split; [done|].
      split; [done|]. cbn.
      pose proof (Hrange i (Attributes o)) as Hperm.
      assert (Hnd : NoDup (map_range env i (Attributes o)).*1).
      { rewrite Hperm. apply NoDup_fst_map_to_list. }
      split.
      * intros k v Hkv. apply upserts_Get_in; [done|].
        rewrite Hperm. by apply elem_of_map_to_list.
      * intros k Hk. apply upserts_Get_other. rewrite Hperm.
        intros Hin. apply list_elem_of_fmap in Hin as ([k' v] & -> & Hin).
        apply elem_of_map_to_list in Hin. cbn in Hk. congruence.
    + exists rm0. split; [done|]. split; [done|].
      assert (Hempty : Attributes o = ∅).
      { apply map_size_empty_iff. lia. }
      split; [|done]. intros k v Hkv. by rewrite Hempty, lookup_empty in Hkv.
  - intros ms c w' r cl ctx md opts. apply Write_export_event.
Qed.

(** C6: a connected [Write] whose finalized payload has a group exports,
    after its warnings, one payload.  That payload is the finalized one
    when no static attribute is configured.  Otherwise it has the same
    groups, in the same order and with the same content below them, and
    in every group each configured key now reads the configured value,
    whatever it read before, while every other key reads what it read
    before. *)
Theorem Write_attributes_upsert env ms o c cl :
  range_complete env →
  metricsConverter o = Some c →
  metricsServiceClient o = Some cl →
  length (GetMetrics env (Write_batch env (NewBatch env c) ms)) ≠ 0%nat →
  ∃ tr ctx md r,
    run (Write env ms) o =
      ({| self := o; trace := tr ++ [EvExport cl ctx md (callOptions o)] |}, r) ∧
    Forall (λ ev, is_warning ev) tr ∧
    (Attributes o = ∅ →
       md = NewRequestFromMetrics
              (GetMetrics env (Write_batch env (NewBatch env c) ms))) ∧
    length (ResourceMetrics md)
      = length (GetMetrics env (Write_batch env (NewBatch env c) ms)) ∧
    (∀ i rm0,
       GetMetrics env (Write_batch env (NewBatch env c) ms) !! i = Some rm0 →
       ∃ rm, ResourceMetrics md !! i = Some rm ∧
             pdata.ScopeMetrics rm = pdata.ScopeMetrics rm0 ∧
             (∀ k v, Attributes o !! k = Some v →
                     pdata.Get k (pdata.Attributes rm) = Some (pdata.ValueStr v)) ∧
             (∀ k, Attributes o !! k = None →
                   pdata.Get k (pdata.Attributes rm)
                     = pdata.Get k (pdata.Attributes rm0))).
Proof.
  intros Hrange Hc Hcl Hlen.
  rewrite (Write_connected_run env ms o c cl Hc Hcl).
  rewrite bool_decide_eq_false_2 by done.
  remember (GetMetrics env (Write_batch env (NewBatch env c) ms)) as rms eqn:Hrms.
  destruct (Write_payload_stamped env o rms Hrange) as (Hempty & Hsame & Hgroups & _).
  do 4 eexists. split; [reflexivity|].
  split; [apply Write_warnings_is_warning|]. done.
Qed.

(** ** The value types *)

Lemma vType_None t :
  vType t = None ↔
  t ∉ [telegraf.Gauge; telegraf.Untyped; telegraf.Counter;
       telegraf.Histogram; telegraf.Summary].
Proof.
  unfold vType. rewrite !not_elem_of_cons.
  repeat case_bool_decide; split; try done; try tauto.
  intros _. repeat split; try done. apply not_elem_of_nil.
Qed.

(** C2: the five kinds map as listed and no other kind maps at all.  A
    point of such a kind changes a [Write] by one warning that names the
    kind, and by nothing else: the call ends as it does without the
    point, with the same warnings before and after and the same export. *)
Theorem vType_mapping :
  vType telegraf.Gauge = Some common.InfluxMetricValueTypeGauge ∧
  vType telegraf.Untyped = Some common.InfluxMetricValueTypeUntyped ∧
  vType telegraf.Counter = Some common.InfluxMetricValueTypeSum ∧
  vType telegraf.Histogram = Some common.InfluxMetricValueTypeHistogram ∧
  vType telegraf.Summary = Some common.InfluxMetricValueTypeSummary ∧
  (∀ t, vType t = None ↔
        t ∉ [telegraf.Gauge; telegraf.Untyped; telegraf.Counter;
             telegraf.Histogram; telegraf.Summary]) ∧
  (∀ env o c ms1 m ms2,
     metricsConverter o = Some c →
     vType (telegraf.Type_ m) = None →
     ∃ ta tb r,
       run (Write env (ms1 ++ m :: ms2)) o =
         ({| self := o;
             trace := ta ++ [EvWarnf "unrecognized metric type %Q"
                               (ArgValueType (telegraf.Type_ m))] ++ tb |}, r) ∧
       run (Write env (ms1 ++ ms2)) o = ({| self := o; trace := ta ++ tb |}, r) ∧
       (is_Some (metricsServiceClient o) → r ≠ Panic)).
Proof.
  do 5 (split; [reflexivity|]). split; [apply vType_None|].
  intros env o c ms1 m ms2 Hc Hm. unfold run. rewrite !Write_run.
  cbn [self trace]. rewrite Hc. cbn zeta. cbn [app].
  set (b0 := NewBatch env c).
  assert (Hb : Write_batch env b0 (ms1 ++ m :: ms2) = Write_batch env b0 (ms1 ++ ms2)).
  { rewrite !Write_batch_app. cbn. by rewrite Write_add_unrecognized. }
  assert (Hw : Write_warnings env b0 (ms1 ++ m :: ms2) =
               Write_warnings env b0 ms1 ++
               [EvWarnf "unrecognized metric type %Q"
                  (ArgValueType (telegraf.Type_ m))] ++
               Write_warnings env (Write_batch env b0 ms1) ms2).
  { rewrite Write_warnings_app. cbn. unfold Write_warning at 1. rewrite Hm.
    by rewrite Write_add_unrecognized. }
  rewrite Hb, Hw, (Write_warnings_app env ms1 ms2).
  case_bool_decide.
  - do 3 eexists. split; [reflexivity|]. split; [reflexivity|done].
  - destruct (metricsServiceClient o) as [cl|].
    + exists (Write_warnings env b0 ms1). eexists. eexists.
      split; [|split].
      * rewrite <- !app_assoc. reflexivity.
      * rewrite <- !app_assoc. reflexivity.
      * intros _. by destruct (Export env cl _ _ _).
    + do 3 eexists. split; [reflexivity|]. split; [reflexivity|].
      by intros [? ?].
Qed.

End Properties.

(** * Further behaviour of the three calls *)

Section Behaviour.

Context {P : Platform}.

Implicit Types (env : Env) (o : OpenTelemetry) (w : World).

(** ** Connect and the configuration *)

Lemma defaults_configuration o :
  ServiceAddress (defaults o)
    = (if bool_decide (ServiceAddress o = "")
       then defaultServiceAddress else ServiceAddress o) ∧
  Timeout (defaults o)
    = (if bool_decide (Timeout o ≤ 0)%Z then defaultTimeout else Timeout o) ∧
  Compression (defaults o) = effective_compression (Compression o) ∧
  Attributes (defaults o) = Attributes o.
Proof.
  unfold defaults, effective_compression.
  destruct (bool_decide (ServiceAddress o = "")); cbn;
    destruct (bool_decide (Timeout o ≤ 0)%Z); cbn;
    destruct (bool_decide (Compression o = "")); cbn; done.
Qed.

Lemma with_vendor_headers_settings o :
  same_settings o (with_vendor_headers o) ∧
  Timeout (with_vendor_headers o) = Timeout o.
Proof.
  unfold with_vendor_headers, same_settings.
  destruct (bool_decide (Dialect o = coralogixDialect)); [|done].
  destruct (coralogix o) eqn:Hv; cbn; by rewrite ?Hv.
Qed.

Lemma established_settings o c cc :
  same_settings o (established o c cc) ∧
  Timeout (established o c cc) = Timeout o.
Proof.
  unfold established, same_settings. cbn.
  destruct (bool_decide (Compression o ≠ "") && bool_decide (Compression o ≠ "none"));
    done.
Qed.

Lemma same_settings_trans o1 o2 o3 :
  same_settings o1 o2 → same_settings o2 o3 → same_settings o1 o3.
Proof.
  unfold same_settings.
  intros (-> & -> & -> & -> & ->) (-> & -> & -> & -> & ->). done.
Qed.

(** The instance a [Connect] leaves is the one after the defaults, with
    at most the headers and the connection fields written. *)
Lemma Connect_self env w :
  let d := defaults (self w) in
  let o' := self (Connect env w).1 in
  same_settings d o' ∧ ServiceAddress o' = ServiceAddress d ∧
  Timeout o' = Timeout d ∧ Compression o' = Compression d.
Proof.
  cbn zeta. rewrite Connect_run. cbn zeta.
  set (d := defaults (self w)).
  destruct (with_vendor_headers_settings d) as [Hs Ht].
  destruct (with_vendor_headers_fields d) as (_ & Hc & Ha & _).
  assert (Hv : same_settings d (with_vendor_headers d) ∧
               ServiceAddress (with_vendor_headers d) = ServiceAddress d ∧
               Timeout (with_vendor_headers d) = Timeout d ∧
               Compression (with_vendor_headers d) = Compression d) by done.
  destruct (decide _); [cbn; by repeat split|].
  destruct (NewLineProtocolToOtelMetrics env _) as [c|e]; [|done].
  destruct (TLSConfig env _) as [t|e]; [|done].
  destruct (grpc_Dial env _ _) as [cc|e]; [|done].
  cbn [fst self].
  destruct (established_settings (with_vendor_headers d) c cc) as [Hs' Ht'].
  destruct (established_fields (with_vendor_headers d) c cc)
    as (_ & _ & _ & _ & Hc' & Ha').
  split; [by eapply same_settings_trans|].
  by rewrite Ht', Hc', Ha', Ht, Hc, Ha.
Qed.

(** The three settings with a default, after a [Connect]. *)
Lemma Connect_configuration env w :
  let o := self w in
  let o' := self (Connect env w).1 in
  ServiceAddress o'
    = (if bool_decide (ServiceAddress o = "")
       then "localhost:4317" else ServiceAddress o) ∧
  Timeout o' = (if bool_decide (Timeout o ≤ 0)%Z then 5000000000%Z else Timeout o) ∧
  Compression o' = (if bool_decide (Compression o = "") then "gzip" else Compression o) ∧
  ServiceAddress o' ≠ "" ∧ (0 < Timeout o')%Z ∧ Compression o' ≠ "" ∧
  same_settings o o'.
Proof.
  cbn zeta.
  destruct (Connect_self env w) as (Hs & Ha & Ht & Hc).
  destruct (defaults_configuration (self w)) as (Ha' & Ht' & Hc' & Hat).
  destruct (defaults_fields (self w)) as (_ & _ & Hd & Hv & Hcc & Hl).
  rewrite Ha, Ht, Hc, Ha', Ht', Hc'. unfold effective_compression.
  split; [done|]. split; [done|]. split; [done|].
  unfold defaultServiceAddress, defaultTimeout, defaultCompression.
  clear Ha Ht Hc Ha' Ht' Hc'.
  split; [case_bool_decide; [intros [=]|done]|].
  split; [case_bool_decide; lia|].
  split; [case_bool_decide; [intros [=]|done]|].
  eapply same_settings_trans; [|exact Hs]. by unfold same_settings.
Qed.

(** X1: however [Connect] ends, failure and panic included, the address,
    the timeout and the codec of the instance are the configured ones
    where those were set and the defaults where they were not, so none
    of them is unset afterwards; the TLS settings, the static attributes,
    the dialect, the vendor settings and the logger are never written. *)
Theorem Connect_applies_defaults env o :
  let o' := self (run (Connect env) o).1 in
  ServiceAddress o'
    = (if bool_decide (ServiceAddress o = "")
       then "localhost:4317" else ServiceAddress o) ∧
  Timeout o' = (if bool_decide (Timeout o ≤ 0)%Z then 5000000000%Z else Timeout o) ∧
  Compression o' = (if bool_decide (Compression o = "") then "gzip" else Compression o) ∧
  ServiceAddress o' ≠ "" ∧ (0 < Timeout o')%Z ∧ Compression o' ≠ "" ∧
  same_settings o o'.
Proof. exact (Connect_configuration env {| self := o; trace := [] |}). Qed.

Lemma credential_for_Dialect o o' (t : option ntls_Config) :
  Dialect o' = Dialect o → credential_for o' t = credential_for o t.
Proof. unfold credential_for. by intros ->. Qed.

Lemma configured_fields o :
  let o2 := with_vendor_headers (defaults o) in
  Dialect o2 = Dialect o ∧ ClientConfig o2 = ClientConfig o ∧ Log o2 = Log o.
Proof.
  cbn zeta.
  destruct (with_vendor_headers_settings (defaults o)) as [(-> & _ & -> & _ & ->) _].
  destruct (defaults_fields o) as (_ & _ & -> & _ & -> & ->). done.
Qed.

(** X2: [Connect] returns nil exactly when the vendor settings are there
    if the dialect asks for them, the converter was built, the TLS helper
    gave an answer and the dial to the effective address succeeded; the
    instance then holds that converter and that channel, and its client
    is the one made for that channel. *)
Theorem Connect_success_stores env o w' r :
  run (Connect env) o = (w', r) →
  (r = Done tt ↔
   ¬ vendor_config_missing o ∧
   ∃ c t cc,
     NewLineProtocolToOtelMetrics env (mk_otelLogger (Log o)) = ok c ∧
     TLSConfig env (ClientConfig o) = ok t ∧
     grpc_Dial env (ServiceAddress (self w')) (dial_options env o t) = ok cc) ∧
  (r = Done tt →
   ∃ c t cc,
     NewLineProtocolToOtelMetrics env (mk_otelLogger (Log o)) = ok c ∧
     TLSConfig env (ClientConfig o) = ok t ∧
     grpc_Dial env (ServiceAddress (self w')) (dial_options env o t) = ok cc ∧
     metricsConverter (self w') = Some c ∧
     grpcClientConn (self w') = Some cc ∧
     metricsServiceClient (self w') = Some (NewClient cc)).
Proof.
  unfold run. rewrite Connect_run. cbn [self trace]. cbn zeta.
  set (o2 := with_vendor_headers (defaults o)).
  destruct (configured_fields o) as (Hd & Hcc & Hl). fold o2 in Hd, Hcc, Hl.
  assert (Hopts : ∀ t, dial_options env o2 t = dial_options env o t).
  { intros t. unfold dial_options. by rewrite (credential_for_Dialect o o2). }
  rewrite Hcc. intros Hrun.
  destruct (decide (vendor_config_missing (defaults o))) as [Hm|Hm].
  { rewrite defaults_vendor_config_missing in Hm. simplify_eq.
    split; [|done]. split; [done|]. intros [Hn _]. by destruct Hn. }
  rewrite defaults_vendor_config_missing in Hm.
  destruct (NewLineProtocolToOtelMetrics env _) as [c|e] eqn:Hc.
  2:{ simplify_eq. split; [|done]. split; [done|].
      by intros (_ & c & t & cc & ? & _). }
  destruct (TLSConfig env (ClientConfig o)) as [t|e] eqn:Ht.
  2:{ simplify_eq. split; [|done]. split; [done|].
      by intros (_ & c' & t & cc & _ & ? & _). }
  rewrite Hopts in Hrun.
  destruct (grpc_Dial env (ServiceAddress o2) (dial_options env o t)) as [cc|e] eqn:Hdial.
  - injection Hrun as <- <-. cbn [self].
    destruct (established_fields o2 c cc) as (Hmc & Hgc & Hsc & _ & _ & ->).
    split.
    + split; [|done]. intros _. split; [done|]. by exists c, t, cc.
    + intros _. by exists c, t, cc.
  - injection Hrun as <- <-. cbn [self].
    split; [|done]. split; [done|].
    intros (_ & c' & t' & cc & _ & Ht' & Hd'). simplify_eq. congruence.
Qed.

(** X3: a [Connect] adds at most one event, a dial, and never a close.
    When it returns nil the channel it stores is the one that dial gave,
    whatever the instance held before: a channel still stored from an
    earlier [Connect] is overwritten without being closed. *)
Theorem Connect_never_closes env w w' r :
  Connect env w = (w', r) →
  ∃ new,
    trace w' = trace w ++ new ∧
    Forall (λ ev, is_dial ev) new ∧ (length new ≤ 1)%nat ∧
    (r = Done tt →
     ∃ target opts cc,
       new = [EvDial target opts] ∧ grpc_Dial env target opts = ok cc ∧
       grpcClientConn (self w') = Some cc).
Proof.
  rewrite Connect_run. cbn zeta. intros Hrun.
  destruct (decide _).
  { simplify_eq. exists []. cbn. rewrite app_nil_r.
    split; [done|]. split; [constructor|]. split; [lia|done]. }
  destruct (NewLineProtocolToOtelMetrics env _) as [c|e].
  2:{ simplify_eq. exists []. cbn. rewrite app_nil_r.
    split; [done|]. split; [constructor|]. split; [lia|done]. }
  destruct (TLSConfig env _) as [t|e].
  2:{ simplify_eq. exists []. cbn. rewrite app_nil_r.
    split; [done|]. split; [constructor|]. split; [lia|done]. }
  destruct (grpc_Dial env _ _) as [cc|e] eqn:Hdial.
  - injection Hrun as <- <-. eexists. split; [reflexivity|]. cbn.
    split; [by repeat constructor|]. split; [lia|]. intros _.
    do 3 eexists. split; [reflexivity|]. split; [exact Hdial|].
    apply established_fields.
  - injection Hrun as <- <-. eexists. split; [reflexivity|]. cbn.
    split; [by repeat constructor|]. split; [lia|]. done.
Qed.

Lemma Connect_Headers env w :
  let d := defaults (self w) in
  Headers (self (Connect env w).1) =
    if decide (vendor_config_missing d) then Some (default ∅ (Headers d))
    else Headers (with_vendor_headers d).
Proof.
  cbn zeta. rewrite Connect_run. cbn zeta.
  destruct (decide _); [done|].
  destruct (NewLineProtocolToOtelMetrics env _) as [c|e]; [|done].
  destruct (TLSConfig env _) as [t|e]; [|done].
  destruct (grpc_Dial env _ _) as [cc|e]; [|done].
  cbn [fst self]. apply established_fields.
Qed.

Lemma vendor_headers_idemp (cfg : CoralogixConfig) (h : option (gmap string string)) :
  vendor_headers cfg (Some (vendor_headers cfg h)) = vendor_headers cfg h.
Proof.
  apply map_eq. intros k. unfold vendor_headers. cbn [default from_option id].
  rewrite !lookup_insert. repeat case_decide; done.
Qed.

(** X10: a second [Connect] finds nothing left to configure: the address,
    the timeout, the codec and the headers are after it what the first
    [Connect] left, however either of them ended, and so are the settings
    it only reads. *)
Theorem Connect_twice_same_configuration env1 env2 w :
  let w1 := (Connect env1 w).1 in
  let w2 := (Connect env2 w1).1 in
  same_configuration (self w1) (self w2) ∧ same_settings (self w1) (self w2).
Proof.
  cbn zeta. set (w1 := (Connect env1 w).1).
  destruct (Connect_configuration env1 w) as (_ & _ & _ & Ha1 & Ht1 & Hc1 & Hs1).
  destruct (Connect_configuration env2 w1) as (Ha2 & Ht2 & Hc2 & _ & _ & _ & Hs2).
  cbn zeta in *. fold w1 in Ha1, Ht1, Hc1, Hs1.
  split; [|done]. unfold same_configuration.
  rewrite Ha2, Ht2, Hc2.
  rewrite !bool_decide_eq_false_2 by (done || lia).
  split; [done|]. split; [done|]. split; [done|].
  pose proof (Connect_Headers env1 w) as Hh1.
  pose proof (Connect_Headers env2 w1) as Hh2.
  cbn zeta in Hh1, Hh2. fold w1 in Hh1.
  destruct (defaults_fields (self w)) as (_ & Hh0 & Hd0 & Hv0 & _).
  destruct (defaults_fields (self w1)) as (_ & Hh & Hd & Hv & _).
  destruct Hs1 as (_ & _ & Hd1 & Hv1 & _).
  assert (Hmiss : vendor_config_missing (defaults (self w1)) ↔
                  vendor_config_missing (defaults (self w))).
  { rewrite !defaults_vendor_config_missing.
    unfold vendor_config_missing. by rewrite Hd1, Hv1. }
  destruct (decide (vendor_config_missing (defaults (self w1)))) as [Hm|Hm].
  - rewrite decide_True in Hh1 by by apply Hmiss.
    by rewrite Hh2, Hh, Hh1.
  - rewrite decide_False in Hh1 by by rewrite <- Hmiss.
    rewrite with_vendor_headers_Headers, Hh0, Hd0, Hv0 in Hh1.
    rewrite Hh2, with_vendor_headers_Headers, Hh, Hd, Hv, Hd1, Hv1.
    destruct (bool_decide (Dialect (self w) = coralogixDialect)); [|done].
    destruct (coralogix (self w)) as [cfg|]; [|done].
    by rewrite Hh1, vendor_headers_idemp.
Qed.

Lemma call_none c w w' r :
  call c w = (w', r) →
  Compression (self w) = "none" →
  Compression (self w') = "none" ∧ callOptions (self w') = callOptions (self w).
Proof.
  intros Hcall Hnone. destruct c as [env|env|env ms]; cbn in Hcall.
  - destruct (Connect_callOptions _ _ _ _ Hcall) as [Hco Hopt].
    rewrite Hnone in Hco. change (Compression (self w') = "none") in Hco.
    split; [done|]. rewrite Hopt, Hco.
    rewrite bool_decide_eq_false_2 by (intros H; by apply H). by destruct r.
  - by destruct (Close_fields _ _ _ _ Hcall) as (-> & -> & _).
  - by rewrite (Write_self _ _ _ _ _ Hcall).
Qed.

(** X4: with the codec ["none"] no call option is ever added: after any
    history of calls the call options are the ones the instance started
    with, and the codec is still ["none"]. *)
Theorem Connect_none_adds_no_option cs : ∀ w w' rs,
  history cs w = (w', rs) →
  Compression (self w) = "none" →
  callOptions (self w') = callOptions (self w) ∧ Compression (self w') = "none".
Proof.
  induction cs as [|c cs IH]; intros w w' rs Hh Hnone; cbn in Hh.
  - by simplify_eq.
  - destruct (call c w) as [w1 r1] eqn:Hcall.
    destruct (call_none _ _ _ _ Hcall Hnone) as [Hnone1 Hopt1].
    destruct r1 as [[]|e|].
    + destruct (history cs w1) as [w'' rs'] eqn:Hh'. simplify_eq.
      destruct (IH _ _ _ Hh' Hnone1) as [-> ->]. done.
    + destruct (history cs w1) as [w'' rs'] eqn:Hh'. simplify_eq.
      destruct (IH _ _ _ Hh' Hnone1) as [-> ->]. done.
    + by simplify_eq.
Qed.

(** ** Write and the export call *)

(** A [Write] on a world is the [Write] on its instance, with the events
    put after those already there. *)
Lemma Write_new_events env ms w :
  Write env ms w =
    ({| self := self w;
        trace := trace w ++ trace (run (Write env ms) (self w)).1 |},
     (run (Write env ms) (self w)).2).
Proof.
  unfold run. rewrite !Write_run. cbn [self trace]. cbn [app].
  destruct (metricsConverter (self w)) as [c|].
  2:{ cbn. rewrite app_nil_r. by destruct w. }
  cbn zeta. case_bool_decide; [done|].
  destruct (metricsServiceClient (self w)) as [cl|]; [|done].
  cbn. by rewrite app_assoc.
Qed.

Lemma Write_run_export env ms o w' r cl ctx md opts :
  run (Write env ms) o = (w', r) →
  EvExport cl ctx md opts ∈ trace w' →
  metricsServiceClient o = Some cl ∧ ctx = Write_context o ∧ opts = callOptions o.
Proof.
  unfold run. rewrite Write_run. cbn [self trace]. cbn [app]. intros Hrun Hin.
  destruct (metricsConverter o) as [c|].
  2:{ injection Hrun as <- <-. by apply elem_of_nil in Hin. }
  cbn zeta in Hrun.
  pose proof (Write_warnings_is_warning env ms (NewBatch env c)) as Hw.
  assert (Hnoexp : EvExport cl ctx md opts ∉ Write_warnings env (NewBatch env c) ms).
  { intros Hin'. rewrite Forall_forall in Hw. by apply Hw in Hin'. }
  case_bool_decide.
  { injection Hrun as <- <-. done. }
  destruct (metricsServiceClient o) as [cl'|].
  - injection Hrun as <- <-. cbn [trace] in Hin.
    apply elem_of_app in Hin as [Hin|Hin]; [done|].
    apply list_elem_of_singleton in Hin. by simplify_eq.
  - injection Hrun as <- <-. done.
Qed.

Lemma Write_context_fields o :
  timeout (Write_context o) = Timeout o ∧
  outgoing (Write_context o) = outgoing_for (Headers o).
Proof.
  unfold Write_context, outgoing_for.
  destruct (Headers o) as [h|]; [|done].
  destruct (decide (h = ∅)) as [->|Hne].
  - rewrite bool_decide_eq_false_2 by (rewrite map_size_empty; lia).
    by rewrite bool_decide_eq_true_2.
  - rewrite bool_decide_eq_true_2.
    + by rewrite bool_decide_eq_false_2.
    + assert (size h ≠ 0%nat) by by rewrite map_size_empty_iff. lia.
Qed.

(** X5: the export call of a [Write] goes to the stored client, under a
    context whose timeout is the configured one, with the stored call
    options; the context carries the configured headers as outgoing
    metadata exactly when there is at least one header. *)
Theorem Write_export_call env ms o w' r cl ctx md opts :
  run (Write env ms) o = (w', r) →
  EvExport cl ctx md opts ∈ trace w' →
  metricsServiceClient o = Some cl ∧
  timeout ctx = Timeout o ∧
  outgoing ctx = outgoing_for (Headers o) ∧
  opts = callOptions o.
Proof.
  intros Hrun Hin.
  destruct (Write_run_export _ _ _ _ _ _ _ _ _ Hrun Hin) as (Hcl & -> & ->).
  destruct (Write_context_fields o) as [Ht Ho]. done.
Qed.

(** X6: after a [Connect] for the vendor dialect has returned nil, every
    export of a [Write] carries the three vendor headers over the
    configured ones as outgoing metadata, has a positive timeout, and
    goes to the client of the channel that [Connect] stored. *)
Theorem Connect_then_Write_sends_vendor_headers
    env env' o cfg w1 ms w2 r cl ctx md opts :
  Dialect o = coralogixDialect →
  coralogix o = Some cfg →
  run (Connect env) o = (w1, Done tt) →
  Write env' ms w1 = (w2, r) →
  EvExport cl ctx md opts ∈ trace w2 →
  outgoing ctx = Some (metadata_New (vendor_headers cfg (Headers o))) ∧
  (0 < timeout ctx)%Z ∧
  ∃ cc, grpcClientConn (self w1) = Some cc ∧ cl = NewClient cc.
Proof.
  intros Hd Hcfg Hconn Hwrite Hin.
  rewrite Write_new_events in Hwrite. injection Hwrite as <- <-.
  cbn [trace] in Hin. apply elem_of_app in Hin as [Hin|Hin].
  { destruct (Connect_trace _ _ _ _ Hconn) as [Htr|(target & dopts & Htr)];
      rewrite Htr in Hin.
    - by apply elem_of_nil in Hin.
    - apply list_elem_of_singleton in Hin. discriminate Hin. }
  destruct (Write_run_export env' ms (self w1) _ _ _ _ _ _
              (surjective_pairing _) Hin) as (Hcl & -> & _).
  destruct (Write_context_fields (self w1)) as [-> ->].
  unfold run in Hconn. rewrite Connect_run in Hconn.
  cbn [self trace] in Hconn. cbn zeta in Hconn.
  set (o2 := with_vendor_headers (defaults o)) in *.
  assert (∃ c cc, self w1 = established o2 c cc) as (c & cc & Hw1).
  { destruct (decide _); [discriminate Hconn|].
    destruct (NewLineProtocolToOtelMetrics env _) as [c|e]; [|discriminate Hconn].
    destruct (TLSConfig env _) as [t|e]; [|discriminate Hconn].
    destruct (grpc_Dial env _ _) as [cc|e]; [|discriminate Hconn].
    injection Hconn as <-. by exists c, cc. }
  clear Hconn. rewrite Hw1 in Hcl |- *.
  destruct (established_fields o2 c cc) as (_ & Hgc & Hsc & Hh & _).
  destruct (established_settings o2 c cc) as [_ Ht].
  destruct (with_vendor_headers_settings (defaults o)) as [_ Ht'].
  destruct (defaults_configuration o) as (_ & Ht'' & _).
  destruct (defaults_fields o) as (_ & Hh0 & Hd0 & Hv0 & _).
  split; [|split].
  - rewrite Hh. unfold o2.
    rewrite with_vendor_headers_Headers, Hh0, Hd0, Hv0, Hcfg.
    rewrite bool_decide_eq_true_2 by done. unfold outgoing_for.
    rewrite bool_decide_eq_false_2; [done|].
    unfold vendor_headers. apply insert_non_empty.
  - rewrite Ht. unfold o2. rewrite Ht', Ht''. unfold defaultTimeout.
    case_bool_decide; lia.
  - exists cc. split; [done|]. congruence.
Qed.

Lemma Close_self env w w1 r1 :
  Close env w = (w1, r1) →
  grpcClientConn (self w1) = None ∧
  metricsConverter (self w1) = metricsConverter (self w) ∧
  metricsServiceClient (self w1) = metricsServiceClient (self w) ∧
  callOptions (self w1) = callOptions (self w) ∧
  same_configuration (self w) (self w1) ∧ same_settings (self w) (self w1).
Proof.
  rewrite Close_run.
  destruct (grpcClientConn (self w)) as [cc|] eqn:Hcc; intros [= <- <-]; done.
Qed.

(** X7: [Close] clears the channel handle and leaves the converter, the
    client, the call options and every setting as they were, and [Write]
    never looks at the handle.  So a [Write] after a [Close] does not
    fail fast: when its payload has a group it still issues the export,
    to the client of the closed channel and with the stored call options,
    and returns whatever that call returns. *)
Theorem Write_after_Close_exports env env' ms w w1 r1 c cl :
  Close env w = (w1, r1) →
  metricsConverter (self w) = Some c →
  metricsServiceClient (self w) = Some cl →
  length (GetMetrics env' (Write_batch env' (NewBatch env' c) ms)) ≠ 0%nat →
  grpcClientConn (self w1) = None ∧
  same_configuration (self w) (self w1) ∧ same_settings (self w) (self w1) ∧
  ∃ tr ctx md,
    run (Write env' ms) (self w1) =
      ({| self := self w1;
          trace := tr ++ [EvExport cl ctx md (callOptions (self w))] |},
       match Export env' cl ctx md (callOptions (self w)) with
       | None => Done tt
       | Some e => Raise e
       end) ∧
    Forall (λ ev, is_warning ev) tr.
Proof.
  intros Hclose Hc Hcl Hlen.
  destruct (Close_self _ _ _ _ Hclose) as (Hgc & Hmc & Hsc & Hopts & Hconf & Hset).
  split; [exact Hgc|]. split; [exact Hconf|]. split; [exact Hset|].
  rewrite <- Hmc in Hc. rewrite <- Hsc in Hcl.
  rewrite (Write_connected_run env' ms (self w1) c cl Hc Hcl).
  rewrite bool_decide_eq_false_2 by done. rewrite Hopts.
  do 3 eexists. split; [reflexivity|]. apply Write_warnings_is_warning.
Qed.

Lemma Write_warning_length env b m : (length (Write_warning env b m) ≤ 1)%nat.
Proof.
  unfold Write_warning. destruct (vType _); [|cbn; lia].
  destruct (Write_rejected _ _ _); cbn; lia.
Qed.

Lemma Write_warnings_length env ms : ∀ b,
  (length (Write_warnings env b ms) ≤ length ms)%nat.
Proof.
  induction ms as [|m ms IH]; intros b; cbn; [lia|].
  rewrite length_app. pose proof (Write_warning_length env b m).
  specialize (IH (Write_add env b m)). lia.
Qed.

(** X8: on any instance, connected or not, a [Write] leaves the instance
    as it found it.  The events it adds are warnings, at most one for
    each input point, followed by at most one export, which is then the
    last event: it never dials and never closes. *)
Theorem Write_effects env ms w w' r :
  Write env ms w = (w', r) →
  self w' = self w ∧
  ∃ warnings rest,
    trace w' = trace w ++ warnings ++ rest ∧
    Forall (λ ev, is_warning ev) warnings ∧
    (length warnings ≤ length ms)%nat ∧
    (rest = [] ∨ ∃ cl ctx md opts, rest = [EvExport cl ctx md opts]).
Proof.
  rewrite Write_run. intros Hrun.
  destruct (metricsConverter (self w)) as [c|].
  2:{ injection Hrun as <- <-. split; [done|]. exists [], []. cbn.
      rewrite app_nil_r. split; [done|]. split; [constructor|].
      split; [lia|by left]. }
  cbn zeta in Hrun.
  pose proof (Write_warnings_is_warning env ms (NewBatch env c)) as Hw.
  pose proof (Write_warnings_length env ms (NewBatch env c)) as Hl.
  case_bool_decide.
  { injection Hrun as <- <-. split; [done|]. eexists _, []. cbn.
    rewrite app_nil_r. split; [done|]. split; [done|]. split; [done|by left]. }
  destruct (metricsServiceClient (self w)) as [cl|].
  - injection Hrun as <- <-. split; [done|]. eexists _, _. cbn.
    rewrite <- app_assoc. split; [done|]. split; [done|]. split; [done|].
    right. eauto.
  - injection Hrun as <- <-. split; [done|]. eexists _, []. cbn.
    rewrite app_nil_r. split; [done|]. split; [done|]. split; [done|by left].
Qed.

Lemma vType_Some t vt :
  vType t = Some vt →
  (t = telegraf.Gauge ∧ vt = common.InfluxMetricValueTypeGauge) ∨
  (t = telegraf.Untyped ∧ vt = common.InfluxMetricValueTypeUntyped) ∨
  (t = telegraf.Counter ∧ vt = common.InfluxMetricValueTypeSum) ∨
  (t = telegraf.Histogram ∧ vt = common.InfluxMetricValueTypeHistogram) ∨
  (t = telegraf.Summary ∧ vt = common.InfluxMetricValueTypeSummary).
Proof.
  unfold vType.
  case_bool_decide; [intros [= <-]; by left|].
  case_bool_decide; [intros [= <-]; right; by left|].
  case_bool_decide; [intros [= <-]; right; right; by left|].
  case_bool_decide; [intros [= <-]; right; right; right; by left|].
  case_bool_decide; [intros [= <-]; right; right; right; by right|].
  done.
Qed.

(** X9: the switch pairs the five kinds with the five value types one to
    one: two kinds with the same value type are the same kind, and every
    value type is that of some kind. *)
Theorem vType_one_to_one :
  (∀ t1 t2 vt, vType t1 = Some vt → vType t2 = Some vt → t1 = t2) ∧
  (∀ vt, ∃ t, vType t = Some vt).
Proof.
  split.
  - intros t1 t2 vt H1 H2.
    apply vType_Some in H1 as [[-> ->]|[[-> ->]|[[-> ->]|[[-> ->]|[-> ->]]]]];
      apply vType_Some in H2 as [[-> ?]|[[-> ?]|[[-> ?]|[[-> ?]|[-> ?]]]]];
      done.
  - intros [].
    + by exists telegraf.Untyped.
    + by exists telegraf.Gauge.
    + by exists telegraf.Counter.
    + by exists telegraf.Histogram.
    + by exists telegraf.Summary.
Qed.

(** ** Connect, then Close; Connect on a new instance *)

Lemma set_grpcClientConn_fields (x : option ClientConn) o :
  metricsConverter (set_grpcClientConn x o) = metricsConverter o ∧
  grpcClientConn (set_grpcClientConn x o) = x ∧
  metricsServiceClient (set_grpcClientConn x o) = metricsServiceClient o.
Proof. done. Qed.

Lemma Connect_Done env w w1 :
  Connect env w = (w1, Done tt) →
  ∃ c cc target opts,
    grpc_Dial env target opts = ok cc ∧
    trace w1 = trace w ++ [EvDial target opts] ∧
    metricsConverter (self w1) = Some c ∧
    grpcClientConn (self w1) = Some cc ∧
    metricsServiceClient (self w1) = Some (NewClient cc).
Proof.
  rewrite Connect_run. cbn zeta.
  destruct (decide _); [discriminate|].
  destruct (NewLineProtocolToOtelMetrics env _) as [c|e]; [|discriminate].
  destruct (TLSConfig env _) as [t|e]; [|discriminate].
  destruct (grpc_Dial env _ _) as [cc|e] eqn:Hdial; [|discriminate].
  intros [= <-]. cbn [self trace].
  exists c, cc. do 2 eexists. split; [exact Hdial|]. split; [reflexivity|].
  destruct (established_fields (with_vendor_headers (defaults (self w))) c cc)
    as (Hmc & Hgc & Hsc & _).
  done.
Qed.

Lemma Close_Some env w cc w' r :
  grpcClientConn (self w) = Some cc →
  Close env w = (w', r) →
  trace w' = trace w ++ [EvClose cc] ∧
  r = match ClientConn_Close env cc with
      | None => Done tt
      | Some e => Raise e
      end ∧
  grpcClientConn (self w') = None ∧
  metricsConverter (self w') = metricsConverter (self w) ∧
  metricsServiceClient (self w') = metricsServiceClient (self w).
Proof.
  intros Hcc. rewrite Close_run, Hcc. intros [= <- <-]. done.
Qed.

(** X11: a [Close] after a [Connect] that returned nil closes the very
    channel that [Connect] dialled and returns what closing it returned.
    Only the channel handle is cleared: the converter and the client of
    the closed channel stay on the instance. *)
Theorem Connect_then_Close env env' w w1 w2 r2 :
  Connect env w = (w1, Done tt) →
  Close env' w1 = (w2, r2) →
  ∃ target opts cc,
    grpc_Dial env target opts = ok cc ∧
    trace w2 = trace w ++ [EvDial target opts; EvClose cc] ∧
    r2 = match ClientConn_Close env' cc with
         | None => Done tt
         | Some e => Raise e
         end ∧
    grpcClientConn (self w2) = None ∧
    is_Some (metricsConverter (self w2)) ∧
    metricsServiceClient (self w2) = Some (NewClient cc).
Proof.
  intros Hconn Hclose.
  destruct (Connect_Done _ _ _ Hconn) as (c & cc & target & opts & Hdial & Htr & Hf).
  destruct Hf as (Hmc & Hgc & Hsc).
  destruct (Close_Some _ _ _ _ _ Hgc Hclose) as (Htr2 & Hr2 & Hgc2 & Hmc2 & Hsc2).
  exists target, opts, cc. split; [exact Hdial|].
  split; [by rewrite Htr2, Htr, <- app_assoc|].
  split; [exact Hr2|]. split; [exact Hgc2|].
  rewrite Hmc2, Hsc2, Hmc, Hsc. eauto.
Qed.

(** X12: the instance [init] registers holds no connection and is set to
    the defaults, so a first [Connect] that returns nil changes none of
    its settings, leaves it without headers, dials the default address
    with TLS if the TLS helper built a configuration and without it
    otherwise, and leaves gzip as its one call option. *)
Theorem init_Connect env cc l w' :
  run (Connect env) (init cc l) = (w', Done tt) →
  uninitialized (init cc l) ∧
  same_configuration (init cc l) (self w') ∧
  Headers (self w') = None ∧
  callOptions (self w') = [UseCompressor "gzip"] ∧
  ∃ t, TLSConfig env cc = ok t ∧
       trace w' =
         [EvDial "localhost:4317"
            [WithTransportCredentials
               match t with
               | Some c => credentials_NewTLS c
               | None => insecure_NewCredentials
               end;
             WithUserAgent (userAgent env)]].
Proof.
  unfold run. rewrite Connect_run. cbn [self trace]. cbn zeta.
  assert (Hd : defaults (init cc l) = init cc l) by reflexivity.
  rewrite Hd.
  assert (Hv : with_vendor_headers (init cc l) = init cc l) by reflexivity.
  rewrite Hv.
  rewrite decide_False by (intros [[=] _]).
  intros Hconn.
  destruct (NewLineProtocolToOtelMetrics env _) as [c|e]; [|discriminate Hconn].
  change (ClientConfig (init cc l)) with cc in Hconn.
  destruct (TLSConfig env cc) as [t|e]; [|discriminate Hconn].
  destruct (grpc_Dial env _ _) as [ch|e]; [|discriminate Hconn].
  injection Hconn as <-. cbn [self trace].
  split; [by repeat split|]. split; [by repeat split|]. split; [done|].
  split; [done|]. exists t. split; [done|]. by destruct t.
Qed.

End Behaviour.

(** * The calls at work in the small world *)

#[local] Existing Instance Fixture.platform.

(** An unset address, timeout and codec get their defaults, and the
    vendor dialect dials with TLS although no TLS setting is given. *)
Example Connect_vendor_run :
  let w := (run (Connect Fixture.env) Fixture.vendor).1 in
  ServiceAddress (self w) = "localhost:4317" ∧
  Timeout (self w) = 5000000000%Z ∧
  Compression (self w) = "gzip" ∧
  callOptions (self w) = [UseCompressor "gzip"] ∧
  trace w = [EvDial "localhost:4317"
               [WithTransportCredentials (credentials_NewTLS "");
                WithUserAgent "telegraf (linux/amd64)"]].
Proof. vm_compute. repeat split. Qed.

(** One point of three gets through; the other two leave a warning each
    and the export still goes out and succeeds. *)
Example Write_mixed_run :
  run (Write Fixture.env Fixture.mixed_points) Fixture.connected =
    ({| self := Fixture.connected;
        trace :=
          [EvWarnf "failed to add point: %s" (ArgError (errorString "no fields"));
           EvWarnf "unrecognized metric type %Q" (ArgValueType 9);
           EvExport (NewClient "localhost:4317")
             {| timeout := 5000000000; outgoing := None |}
             (NewRequestFromMetrics
                [ {| pdata.Attributes := [("env", pdata.ValueStr "dev")];
                     pdata.ScopeMetrics := ["cpu"] |} ])
             [UseCompressor "gzip"]] |}, Done tt).
Proof. vm_compute. reflexivity. Qed.

(** The kind 0 that [iota] skips, and the first one past the list. *)
Example vType_unlisted : vType 0 = None ∧ vType 6 = None.
Proof. split; reflexivity. Qed.

(** Closing a connected instance twice. *)
Example Close_twice_run :
  (history [CallClose Fixture.env_close_fails; CallClose Fixture.env_close_fails]
     {| self := Fixture.connected; trace := [] |}).2
    = [Raise (errorString "close failed"); Done tt].
Proof. vm_compute. reflexivity. Qed.

(** A rejected point can end up in the export: with a converter that
    files the point before it reports the error, the one point of this
    input is rejected and logged, and the payload sent holds it, while
    the empty input sends nothing. *)
Lemma Write_rejected_point_exported :
  ¬ (∀ (env : @Env Fixture.platform) o c ms1 m ms2 e,
       metricsConverter o = Some c →
       Write_rejected env (Write_batch env (NewBatch env c) ms1) m = Some e →
       filter (λ ev, is_export ev) (trace (run (Write env (ms1 ++ m :: ms2)) o).1)
         = filter (λ ev, is_export ev) (trace (run (Write env (ms1 ++ ms2)) o).1)).
Proof.
  intros Hdropped.
  specialize (Hdropped Fixture.env_sticky Fixture.connected tt []
                (Fixture.bare_point "disk" telegraf.Counter) []
                (errorString "no fields") eq_refl eq_refl).
  vm_compute in Hdropped. discriminate Hdropped.
Qed.

Lemma Write_error_iff_export_fails_witness :
  metricsConverter Fixture.timed_out = Some tt ∧
  metricsServiceClient Fixture.timed_out = Some (NewClient "localhost:4317") ∧
  ∃ tr r ctx md,
    run (Write Fixture.env Fixture.mixed_points) Fixture.timed_out
      = ({| self := Fixture.timed_out; trace := tr |}, r) ∧
    tr = Write_warnings Fixture.env (NewBatch Fixture.env tt) Fixture.mixed_points ++
         [EvExport (NewClient "localhost:4317") ctx md
            (callOptions Fixture.timed_out)] ∧
    r = Raise (errorString "deadline exceeded").
Proof.
  assert (H1 : metricsConverter Fixture.timed_out = Some tt)
    by (vm_compute; reflexivity).
  assert (H2 : metricsServiceClient Fixture.timed_out
               = Some (NewClient "localhost:4317"))
    by (vm_compute; reflexivity).
  split; [exact H1|]. split; [exact H2|].
  destruct (@Write_error_iff_export_fails Fixture.platform Fixture.env
              Fixture.mixed_points Fixture.timed_out tt
              (@NewClient Fixture.platform "localhost:4317") H1 H2)
    as (tr & r & Hrun & _ & _ & Hexport & _).
  destruct Hexport as (ctx & md & Hctx & Hmd & Htr & Hr).
  { vm_compute. discriminate. }
  exists tr, r, ctx, md. split; [exact Hrun|]. split; [exact Htr|].
  rewrite Hr, Hctx, Hmd. vm_compute. reflexivity.
Defined.

Lemma Write_empty_batch_skips_export_witness :
  metricsConverter Fixture.connected = Some tt ∧
  length (GetMetrics Fixture.env
            (Write_batch Fixture.env (NewBatch Fixture.env tt) Fixture.skipped_points))
    = 0%nat ∧
  ∃ tr, run (Write Fixture.env Fixture.skipped_points) Fixture.connected
          = ({| self := Fixture.connected; trace := tr |}, Done tt) ∧
        filter (λ ev, is_export ev) tr = [].
Proof.
  assert (H1 : metricsConverter Fixture.connected = Some tt)
    by (vm_compute; reflexivity).
  assert (H2 : length (GetMetrics Fixture.env
                  (Write_batch Fixture.env (NewBatch Fixture.env tt) Fixture.skipped_points))
               = 0%nat)
    by (vm_compute; reflexivity).
  split; [exact H1|]. split; [exact H2|].
  destruct (@Write_empty_batch_skips_export Fixture.platform Fixture.env Fixture.skipped_points
              Fixture.connected tt H1 H2) as (tr & Hrun & Hexp & _).
  exists tr. split; [exact Hrun|exact Hexp].
Defined.

Lemma Connect_credential_priority_witness :
  ¬ vendor_config_missing Fixture.vendor ∧
  NewLineProtocolToOtelMetrics Fixture.env (mk_otelLogger (Log Fixture.vendor)) = ok tt ∧
  dialled_with Fixture.env (run (Connect Fixture.env) Fixture.vendor).1
    (run (Connect Fixture.env) Fixture.vendor).2
    (credentials_NewTLS ntls_Config_zero).
Proof.
  assert (H1 : ¬ vendor_config_missing Fixture.vendor)
    by (intros [_ H]; vm_compute in H; discriminate H).
  assert (H2 : NewLineProtocolToOtelMetrics Fixture.env
                 (mk_otelLogger (Log Fixture.vendor)) = ok tt)
    by (vm_compute; reflexivity).
  split; [exact H1|]. split; [exact H2|].
  exact (@Connect_credential_priority Fixture.platform Fixture.env Fixture.vendor _ _ tt
           ltac:(vm_compute; reflexivity) H1 H2).
Defined.

Lemma Connect_vendor_headers_witness :
  Headers (self (run (Connect Fixture.env) Fixture.vendor_unreachable).1)
    = Some (vendor_headers
              {| AppName := "app"; SubSystem := "sub"; PrivateKey := "K" |}
              (Some {[ "ApiName" := "mine" ]})) ∧
  (run (Connect Fixture.env) Fixture.vendor_unreachable).2
    = Raise (errorString "dial failed").
Proof.
  split; [|vm_compute; reflexivity].
  destruct (@Connect_vendor_headers Fixture.platform Fixture.env Fixture.vendor_unreachable _ _
              ltac:(vm_compute; reflexivity)) as [Hvendor _].
  destruct (Hvendor {| AppName := "app"; SubSystem := "sub"; PrivateKey := "K" |}
              eq_refl eq_refl) as [Hh _].
  exact Hh.
Defined.

Lemma Write_attributes_upsert_witness :
  range_complete Fixture.env ∧
  ∃ tr ctx md r rm,
    run (Write Fixture.env Fixture.mixed_points) Fixture.stamping
      = ({| self := Fixture.stamping;
            trace := tr ++ [EvExport (NewClient "localhost:4317") ctx md
                              (callOptions Fixture.stamping)] |}, r) ∧
    ResourceMetrics md !! 0%nat = Some rm ∧
    pdata.Get "env" (pdata.Attributes rm) = Some (pdata.ValueStr "prod").
Proof.
  assert (H1 : range_complete Fixture.env) by (intros i m; reflexivity).
  split; [exact H1|].
  destruct (@Write_attributes_upsert Fixture.platform Fixture.env
              Fixture.mixed_points Fixture.stamping tt
              (@NewClient Fixture.platform "localhost:4317") H1
              ltac:(vm_compute; reflexivity) ltac:(vm_compute; reflexivity)
              ltac:(vm_compute; discriminate))
    as (tr & ctx & md & r & Hrun & _ & _ & _ & Hgroups).
  destruct (Hgroups 0%nat
              {| pdata.Attributes := [("env", pdata.ValueStr "dev")];
                 pdata.ScopeMetrics := ["cpu"] |}
              ltac:(vm_compute; reflexivity))
    as (rm & Hrm & _ & Hset & _).
  exists tr, ctx, md, r, rm. split; [exact Hrun|]. split; [exact Hrm|].
  apply Hset. vm_compute. reflexivity.
Defined.

Lemma Close_idempotent_witness :
  (Close Fixture.env_close_fails {| self := Fixture.connected; trace := [] |}).2
    = Raise (errorString "close failed") ∧
  (Close Fixture.env_close_fails
     (Close Fixture.env_close_fails {| self := Fixture.connected; trace := [] |}).1).2
    = Done tt.
Proof.
  split; [vm_compute; reflexivity|].
  destruct (@Close_idempotent Fixture.platform Fixture.env_close_fails Fixture.env_close_fails
              {| self := Fixture.connected; trace := [] |} _ _ _ _
              ltac:(vm_compute; reflexivity) ltac:(vm_compute; reflexivity))
    as (_ & _ & _ & _ & Hr2 & _).
  exact Hr2.
Defined.

Lemma Connect_failure_retains_nothing_witness :
  (run (Connect Fixture.env_no_converter) Fixture.fresh).2
    = Raise (errorString "no converter") ∧
  uninitialized (self (run (Connect Fixture.env_no_converter) Fixture.fresh).1).
Proof.
  destruct (@Connect_failure_retains_nothing Fixture.platform Fixture.env_no_converter Fixture.fresh
              _ _ ltac:(vm_compute; reflexivity)) as (Habort & Hframe & _).
  assert (Hm : ¬ vendor_config_missing Fixture.fresh)
    by (intros [H _]; vm_compute in H; discriminate H).
  destruct (Habort Hm) as (Hconv & _).
  split; [apply Hconv; reflexivity|].
  apply Hframe; [discriminate|repeat split].
Defined.

Lemma Write_uninitialized_panics_witness :
  metricsConverter Fixture.fresh = None ∧
  run (Write Fixture.env Fixture.mixed_points) Fixture.fresh
    = ({| self := Fixture.fresh; trace := [] |}, Panic).
Proof.
  assert (H1 : metricsConverter Fixture.fresh = None) by reflexivity.
  split; [exact H1|].
  exact (proj1 (@Write_uninitialized_panics Fixture.platform Fixture.env Fixture.mixed_points Fixture.fresh H1)).
Defined.

Lemma Connect_appends_compressor_witness :
  Compression Fixture.fresh ≠ "none" ∧
  callOptions (self (history Fixture.reconnects {| self := Fixture.fresh; trace := [] |}).1)
    = [UseCompressor "gzip"; UseCompressor "gzip"; UseCompressor "gzip"].
Proof.
  assert (H1 : Compression Fixture.fresh ≠ "none") by discriminate.
  split; [exact H1|].
  destruct (@Connect_appends_compressor Fixture.platform Fixture.reconnects Fixture.fresh _ _
              ltac:(vm_compute; reflexivity) H1) as (Hopt & _).
  exact Hopt.
Defined.

Lemma Connect_success_stores_witness :
  ∃ c t cc,
    NewLineProtocolToOtelMetrics Fixture.env (mk_otelLogger (Log Fixture.fresh)) = ok c ∧
    TLSConfig Fixture.env (ClientConfig Fixture.fresh) = ok t ∧
    grpc_Dial Fixture.env "localhost:4317" (dial_options Fixture.env Fixture.fresh t)
      = ok cc ∧
    metricsConverter Fixture.connected = Some c ∧
    grpcClientConn Fixture.connected = Some cc ∧
    metricsServiceClient Fixture.connected = Some (NewClient cc).
Proof.
  destruct (@Connect_success_stores Fixture.platform Fixture.env Fixture.fresh _ _
              ltac:(vm_compute; reflexivity)) as [_ Hstored].
  exact (Hstored eq_refl).
Defined.

Lemma Connect_never_closes_witness :
  ∃ new,
    trace (Connect Fixture.env {| self := Fixture.connected; trace := [] |}).1
      = [] ++ new ∧
    Forall (λ ev, is_dial ev) new.
Proof.
  destruct (@Connect_never_closes Fixture.platform Fixture.env
              {| self := Fixture.connected; trace := [] |} _ _
              ltac:(vm_compute; reflexivity)) as (new & Htr & Hdial & _).
  exists new. split; [exact Htr|exact Hdial].
Defined.

Lemma Connect_none_adds_no_option_witness :
  Compression Fixture.uncompressed = "none" ∧
  callOptions
    (self (history Fixture.reconnects
             {| self := Fixture.uncompressed; trace := [] |}).1) = [].
Proof.
  assert (H1 : Compression Fixture.uncompressed = "none") by reflexivity.
  split; [exact H1|].
  exact (proj1 (@Connect_none_adds_no_option Fixture.platform Fixture.reconnects
                  {| self := Fixture.uncompressed; trace := [] |} _ _
                  ltac:(vm_compute; reflexivity) H1)).
Defined.

Lemma Write_export_call_witness :
  ∃ cl ctx md opts,
    EvExport cl ctx md opts
      ∈ trace (run (Write Fixture.env Fixture.mixed_points) Fixture.connected).1 ∧
    timeout ctx = 5000000000%Z ∧ outgoing ctx = None ∧
    opts = [UseCompressor "gzip"].
Proof.
  assert (Hin : EvExport (@NewClient Fixture.platform "localhost:4317")
                  {| timeout := 5000000000; outgoing := None |}
                  (NewRequestFromMetrics
                     [ {| pdata.Attributes := [("env", pdata.ValueStr "dev")];
                          pdata.ScopeMetrics := ["cpu"] |} ])
                  [UseCompressor "gzip"]
                ∈ trace (run (Write Fixture.env Fixture.mixed_points)
                           Fixture.connected).1)
    by (vm_compute; repeat constructor).
  destruct (@Write_export_call Fixture.platform Fixture.env Fixture.mixed_points
              Fixture.connected _ _ _ _ _ _ ltac:(vm_compute; reflexivity) Hin)
    as (_ & Ht & Ho & Hopts).
  do 4 eexists. split; [exact Hin|]. split; [exact Ht|]. split; [exact Ho|exact Hopts].
Defined.

Lemma Connect_then_Write_sends_vendor_headers_witness :
  ∃ cl ctx md opts,
    EvExport cl ctx md opts
      ∈ trace (Write Fixture.env Fixture.mixed_points Fixture.vendor_connected).1 ∧
    outgoing ctx
      = Some (metadata_New
                (vendor_headers
                   {| AppName := "app"; SubSystem := "sub"; PrivateKey := "K" |}
                   (Some {[ "ApiName" := "mine" ]}))).
Proof.
  assert (Hin : EvExport (@NewClient Fixture.platform "localhost:4317")
                  {| timeout := 5000000000;
                     outgoing :=
                       Some (metadata_New
                               (vendor_headers
                                  {| AppName := "app"; SubSystem := "sub";
                                     PrivateKey := "K" |}
                                  (Some {[ "ApiName" := "mine" ]}))) |}
                  (NewRequestFromMetrics
                     [ {| pdata.Attributes := [("env", pdata.ValueStr "prod")];
                          pdata.ScopeMetrics := ["cpu"] |} ])
                  [UseCompressor "gzip"]
                ∈ trace (Write Fixture.env Fixture.mixed_points
                           Fixture.vendor_connected).1)
    by (vm_compute; repeat constructor).
  destruct (@Connect_then_Write_sends_vendor_headers Fixture.platform
              Fixture.env Fixture.env Fixture.vendor
              {| AppName := "app"; SubSystem := "sub"; PrivateKey := "K" |}
              Fixture.vendor_connected Fixture.mixed_points _ _ _ _ _ _
              eq_refl eq_refl ltac:(vm_compute; reflexivity)
              ltac:(vm_compute; reflexivity) Hin)
    as (Ho & _).
  do 4 eexists. split; [exact Hin|exact Ho].
Defined.

Lemma Write_after_Close_exports_witness :
  grpcClientConn (self (Close Fixture.env Fixture.open_world).1) = None ∧
  ∃ tr ctx md,
    run (Write Fixture.env Fixture.mixed_points)
        (self (Close Fixture.env Fixture.open_world).1) =
      ({| self := self (Close Fixture.env Fixture.open_world).1;
          trace := tr ++ [EvExport (NewClient "localhost:4317") ctx md
                            (callOptions (self Fixture.open_world))] |},
       match Export Fixture.env (NewClient "localhost:4317") ctx md
               (callOptions (self Fixture.open_world)) with
       | None => Done tt
       | Some e => Raise e
       end).
Proof.
  assert (Hclose : Close Fixture.env Fixture.open_world
                   = ((Close Fixture.env Fixture.open_world).1,
                      (Close Fixture.env Fixture.open_world).2))
    by (vm_compute; reflexivity).
  destruct (@Write_after_Close_exports Fixture.platform Fixture.env Fixture.env
              Fixture.mixed_points Fixture.open_world _ _ tt
              (@NewClient Fixture.platform "localhost:4317") Hclose
              ltac:(vm_compute; reflexivity) ltac:(vm_compute; reflexivity)
              ltac:(vm_compute; discriminate))
    as (Hgc & _ & _ & tr & ctx & md & Hrun & _).
  split; [exact Hgc|]. exists tr, ctx, md. exact Hrun.
Defined.

Lemma Write_effects_witness :
  ∃ warnings rest,
    trace (Write Fixture.env Fixture.mixed_points
             {| self := Fixture.connected; trace := [] |}).1
      = [] ++ warnings ++ rest ∧
    (length warnings ≤ 3)%nat.
Proof.
  destruct (@Write_effects Fixture.platform Fixture.env Fixture.mixed_points
              {| self := Fixture.connected; trace := [] |} _ _
              ltac:(vm_compute; reflexivity))
    as (_ & warnings & rest & Htr & _ & Hlen & _).
  exists warnings, rest. split; [exact Htr|exact Hlen].
Defined.

Lemma Connect_then_Close_witness :
  ∃ target opts cc,
    trace (Close Fixture.env_close_fails
             (Connect Fixture.env {| self := Fixture.fresh; trace := [] |}).1).1
      = [] ++ [EvDial target opts; EvClose cc] ∧
    (Close Fixture.env_close_fails
       (Connect Fixture.env {| self := Fixture.fresh; trace := [] |}).1).2
      = match ClientConn_Close Fixture.env_close_fails cc with
        | None => Done tt
        | Some e => Raise e
        end.
Proof.
  destruct (@Connect_then_Close Fixture.platform Fixture.env Fixture.env_close_fails
              {| self := Fixture.fresh; trace := [] |} _ _ _
              ltac:(vm_compute; reflexivity) ltac:(vm_compute; reflexivity))
    as (target & opts & cc & _ & Htr & Hr & _).
  exists target, opts, cc. split; [exact Htr|exact Hr].
Defined.

Lemma init_Connect_witness :
  callOptions (self (run (Connect Fixture.env) (init "" tt)).1)
    = [UseCompressor "gzip"] ∧
  Headers (self (run (Connect Fixture.env) (init "" tt)).1) = None.
Proof.
  destruct (@init_Connect Fixture.platform Fixture.env "" tt _
              ltac:(vm_compute; reflexivity)) as (_ & _ & Hh & Hopts & _).
  split; [exact Hopts|exact Hh].
Defined.

